(** * osquery/core/windows/wmi.cpp: typed access to WMI query results

    A shallow embedding of [WmiResultItem] (the typed getters over one
    management object) and [WmiRequest] (connect, bind, execute, drain),
    followed by the properties of the two classes.

    COM objects are records of the answers their methods give; every call
    that acquires or releases an external resource is written to an event
    log, so that releases can be counted. *)

From Stdlib Require Import ZArith List String Bool Lia.
Import ListNotations.
Open Scope string_scope.
Open Scope list_scope.
Open Scope Z_scope.

Set Implicit Arguments.

(** ** Machine integers (Windows, LLP64, little endian) *)

Module Int.
(** The value of the low [w] bits read as an unsigned integer. *)
Definition unsigned (w x : Z) : Z := x mod 2 ^ w.

(** The value of the low [w] bits read in two's complement. *)
Definition signed (w x : Z) : Z :=
  let u := x mod 2 ^ w in
  if u <? 2 ^ (w - 1) then u else u - 2 ^ w.

Definition LONG_MAX : Z := 2147483647.
End Int.

Definition HRESULT := Z.
Definition S_OK : HRESULT := 0.
Definition E_FAIL : HRESULT := -2147467259.
Definition WBEM_S_NO_ERROR : HRESULT := 0.
Definition SUCCEEDED (hr : HRESULT) : bool := 0 <=? hr.

Definition VARIANT_TRUE : Z := -1.
Definition VARIANT_FALSE : Z := 0.

(** Runtime type tags (VARTYPE, wtypes.h). *)
Definition VARTYPE := Z.
Definition VT_I4 : VARTYPE := 3.
Definition VT_BSTR : VARTYPE := 8.
Definition VT_BOOL : VARTYPE := 11.
Definition VT_UI1 : VARTYPE := 17.
Definition VT_UI2 : VARTYPE := 18.
Definition VT_UI4 : VARTYPE := 19.
Definition VT_I8 : VARTYPE := 20.
Definition VT_UI8 : VARTYPE := 21.
Definition VT_UINT : VARTYPE := 23.
Definition VT_ARRAY : VARTYPE := 8192.

(** ** Wide strings and arrays *)

Definition wchar_t := Z.
Definition wstring := list wchar_t.
Definition BSTR := wstring.

(** A one-dimensional SAFEARRAY, seen through the three calls
    [GetVectorOfStrings] makes on it: the two bounds and the element
    storage handed out by [SafeArrayAccessData], indexed from 0. *)
Record SAFEARRAY := {
  SafeArrayGetLBound : Z;
  SafeArrayGetUBound : Z;
  SafeArrayAccessData : Z -> BSTR
}.

(** The elements of the array, first to last. *)
Definition elements (a : SAFEARRAY) : list BSTR :=
  map (fun i => SafeArrayAccessData a (Z.of_nat i))
      (seq 0 (Z.to_nat (SafeArrayGetUBound a - SafeArrayGetLBound a + 1))).

(** ** VARIANT

    [vt] is the tag.  The scalar members of the union share the same
    eight bytes, kept in [raw] (0 <= raw < 2^64); each member reads as many
    low bytes as its type is wide.  The two pointer members are kept as
    what they point to. *)
Record VARIANT := {
  vt : VARTYPE;
  raw : Z;
  bstrVal : BSTR;
  parray : SAFEARRAY
}.

Definition boolVal (v : VARIANT) : Z := Int.signed 16 (raw v).   (* VARIANT_BOOL = short *)
Definition bVal (v : VARIANT) : Z := Int.unsigned 8 (raw v).     (* BYTE *)
Definition uiVal (v : VARIANT) : Z := Int.unsigned 16 (raw v).   (* USHORT *)
Definition lVal (v : VARIANT) : Z := Int.signed 32 (raw v).      (* LONG *)
Definition llVal (v : VARIANT) : Z := Int.signed 64 (raw v).     (* LONGLONG *)
Definition ullVal (v : VARIANT) : Z := Int.unsigned 64 (raw v).  (* ULONGLONG *)

Record FILETIME := {
  dwLowDateTime : Z;
  dwHighDateTime : Z
}.

(** ** Status

    The two ways wmi.cpp builds a status: [Status(code)] and
    [Status(code, message)]. *)
Inductive Status :=
| Status1 (code : Z)
| Status2 (code : Z) (message : string).

Definition getCode (s : Status) : Z :=
  match s with Status1 c => c | Status2 c _ => c end.

(** The error kinds of the getters, read off the message a failed getter
    returns. *)
Inductive ErrorKind := RetrievalError | TypeMismatchError | ConversionError.

Definition error_kind (s : Status) : option ErrorKind :=
  match s with
  | Status1 _ => None
  | Status2 c m =>
      if c =? 0 then None
      else if String.eqb m "Error retrieving data from WMI query." then Some RetrievalError
      else if String.eqb m "Error retrieving datetime from WMI query result." then Some RetrievalError
      else if String.eqb m "Invalid data type returned." then Some TypeMismatchError
      else if String.eqb m "Expected VT_BSTR, got something else." then Some TypeMismatchError
      else if String.eqb m "Failed to create SWbemDateTime object." then Some ConversionError
      else if String.eqb m "Failed to set SWbemDateTime value." then Some ConversionError
      else if String.eqb m "GetFileTime failed." then Some ConversionError
      else None
  end.

(** ** COM objects *)

Record IWbemClassObject := {
  Get : wstring -> HRESULT * VARIANT
}.

(** [Next n] is the answer to the [n]-th pull (from 0) of one object:
    the result code, the object and the number of objects returned. *)
Record IEnumWbemClassObject := {
  Next : nat -> HRESULT * option IWbemClassObject * Z
}.

Record IWbemServices := {
  ExecQuery : BSTR -> BSTR -> HRESULT * option IEnumWbemClassObject
}.

Record IWbemLocator := {
  ConnectServer : BSTR -> HRESULT * option IWbemServices
}.

(** [GetFileTime value is_local] renders the value last set by
    [put_Value]. *)
Record ISWbemDateTime := {
  put_Value : BSTR -> HRESULT;
  GetFileTime : BSTR -> Z -> HRESULT * BSTR
}.

Inductive CLSID := CLSID_WbemLocator | CLSID_SWbemDateTime.

Inductive Interface :=
| I_WbemClassObject | I_EnumWbemClassObject | I_WbemServices
| I_WbemLocator | I_SWbemDateTime.

(** What wmi.cpp takes from outside this file: the two string conversions
    of osquery/utils/conversions/windows/strings.h, the C runtime's
    [_wtoi64] and the COM runtime.  A creation of the date-time helper that
    succeeds yields the helper; the locator comes as the pointer the call
    wrote. *)
Class Externals := {
  stringToWstring : string -> wstring;
  bstrToString : BSTR -> string;
  wtoi64 : BSTR -> Z;
  CoInitializeSecurity : HRESULT;
  CoCreateInstance_WbemLocator : HRESULT * option IWbemLocator;
  CoCreateInstance_SWbemDateTime : HRESULT * ISWbemDateTime
}.

(** ** Events and the monad of the embedding *)

Inductive Event :=
| Ev_Get (hr : HRESULT)
| Ev_VariantClear
| Ev_CoInitializeSecurity (hr : HRESULT)
| Ev_CoCreateInstance (c : CLSID) (hr : HRESULT)
| Ev_put_Value (hr : HRESULT)
| Ev_GetFileTime (hr : HRESULT)
| Ev_SysFreeString
| Ev_SafeArrayAccessData
| Ev_SafeArrayUnaccessData
| Ev_ConnectServer (hr : HRESULT)
| Ev_ExecQuery (hr : HRESULT)
| Ev_Next (hr : HRESULT)
| Ev_Release (i : Interface).

(** How a call ends: it returns, or it dereferences a null pointer, or
    [std::vector::reserve] throws [std::length_error], or the embedding's
    fuel runs out (the drain loop has no bound of its own). *)
Inductive Outcome (A : Type) :=
| Returned (a : A)
| NullDereference
| LengthError
| OutOfFuel.

Arguments NullDereference {A}.
Arguments LengthError {A}.
Arguments OutOfFuel {A}.

Definition M (A : Type) := list Event -> list Event * Outcome A.

Definition ret {A} (a : A) : M A := fun t => (t, Returned a).

Definition bind {A B} (m : M A) (k : A -> M B) : M B :=
  fun t =>
    match m t with
    | (t', Returned a) => k a t'
    | (t', NullDereference) => (t', NullDereference)
    | (t', LengthError) => (t', LengthError)
    | (t', OutOfFuel) => (t', OutOfFuel)
    end.

Definition emit (e : Event) : M unit := fun t => (t ++ [e], Returned tt).

Definition crash {A} (o : Outcome A) : M A := fun t => (t, o).

(** [p->...] on a pointer that may be null. *)
Definition deref {A} (p : option A) : M A :=
  match p with
  | Some a => ret a
  | None => crash NullDereference
  end.

Notation "x <- m ;; k" := (bind m (fun x => k))
  (at level 61, m at next level, right associativity).
Notation "m ;;; k" := (bind m (fun _ => k))
  (at level 61, right associativity).

(** Run from an empty log. *)
Definition run {A} (m : M A) : list Event * Outcome A := m [].
Definition trace {A} (m : M A) : list Event := fst (run m).
Definition outcome {A} (m : M A) : Outcome A := snd (run m).

(** How many events of the log satisfy [p]. *)
Definition count (p : Event -> bool) (t : list Event) : nat :=
  List.length (filter p t).

(** A payload comes into being when the lookup answers S_OK, the helper
    when its creation succeeds, the rendered string when [GetFileTime]
    succeeds. *)
Definition payload_created (e : Event) : bool :=
  match e with Ev_Get hr => hr =? S_OK | _ => false end.
Definition helper_created (e : Event) : bool :=
  match e with Ev_CoCreateInstance CLSID_SWbemDateTime hr => SUCCEEDED hr | _ => false end.
Definition buffer_created (e : Event) : bool :=
  match e with Ev_GetFileTime hr => SUCCEEDED hr | _ => false end.

(** ** WmiResultItem *)

Record WmiResultItem := {
  result_ : option IWbemClassObject
}.

(** [WmiResultItem(WmiResultItem&& src)]: the new item and what is left of
    [src]. *)
Definition WmiResultItem_move (src : WmiResultItem) : WmiResultItem * WmiResultItem :=
  let this := {| result_ := None |} in
  (* std::swap(result_, src.result_) *)
  ({| result_ := result_ src |}, {| result_ := result_ this |}).

(** [~WmiResultItem()] *)
Definition WmiResultItem_dtor (this : WmiResultItem) : M WmiResultItem :=
  match result_ this with
  | Some _ =>
      emit (Ev_Release I_WbemClassObject) ;;;
      ret {| result_ := None |}
  | None => ret this
  end.

(** [result_->Get(property_name.c_str(), 0, &value, nullptr, nullptr)] *)
Definition call_Get (p : option IWbemClassObject) (property_name : wstring)
  : M (HRESULT * VARIANT) :=
  obj <- deref p ;;
  let r := Get obj property_name in
  emit (Ev_Get (fst r)) ;;;
  ret r.

Definition VariantClear (value : VARIANT) : M unit := emit Ev_VariantClear.

Section Getters.
Context {E : Externals}.

Definition GetBool (this : WmiResultItem) (name : string) (out : bool)
  : M (Status * bool) :=
  let property_name := stringToWstring name in
  r <- call_Get (result_ this) property_name ;;
  let (hr, value) := r in
  if negb (hr =? S_OK) then
    ret (Status2 (-1) "Error retrieving data from WMI query.", out)
  else if negb (vt value =? VT_BOOL) then
    VariantClear value ;;;
    ret (Status2 (-1) "Invalid data type returned.", out)
  else
    let out := boolVal value =? VARIANT_TRUE in
    VariantClear value ;;;
    ret (Status1 0, out).

Definition GetDateTime (this : WmiResultItem) (name : string)
           (is_local : bool) (ft : FILETIME) : M (Status * FILETIME) :=
  let property_name := stringToWstring name in
  r <- call_Get (result_ this) property_name ;;
  let (hr, value) := r in
  if negb (hr =? S_OK) then
    ret (Status2 (-1) "Error retrieving datetime from WMI query result.", ft)
  else if negb (vt value =? VT_BSTR) then
    VariantClear value ;;;
    ret (Status2 (-1) "Expected VT_BSTR, got something else.", ft)
  else
    let (hr, dt) := CoCreateInstance_SWbemDateTime in
    emit (Ev_CoCreateInstance CLSID_SWbemDateTime hr) ;;;
    if negb (SUCCEEDED hr) then
      VariantClear value ;;;
      ret (Status2 (-1) "Failed to create SWbemDateTime object.", ft)
    else
      let hr := put_Value dt (bstrVal value) in
      emit (Ev_put_Value hr) ;;;
      VariantClear value ;;;
      if negb (SUCCEEDED hr) then
        emit (Ev_Release I_SWbemDateTime) ;;;
        ret (Status2 (-1) "Failed to set SWbemDateTime value.", ft)
      else
        let (hr, filetime_str) :=
          GetFileTime dt (bstrVal value)
                      (if is_local then VARIANT_TRUE else VARIANT_FALSE) in
        emit (Ev_GetFileTime hr) ;;;
        if negb (SUCCEEDED hr) then
          emit (Ev_Release I_SWbemDateTime) ;;;
          ret (Status2 (-1) "GetFileTime failed.", ft)
        else
          let QuadPart := Int.unsigned 64 (wtoi64 filetime_str) in
          let ft := {| dwLowDateTime := Int.unsigned 32 QuadPart;
                       dwHighDateTime := Int.unsigned 32 (QuadPart / 2 ^ 32) |} in
          emit Ev_SysFreeString ;;;
          emit (Ev_Release I_SWbemDateTime) ;;;
          ret (Status1 0, ft).

Definition GetUChar (this : WmiResultItem) (name : string) (out : Z)
  : M (Status * Z) :=
  let property_name := stringToWstring name in
  r <- call_Get (result_ this) property_name ;;
  let (hr, value) := r in
  if negb (hr =? S_OK) then
    ret (Status2 (-1) "Error retrieving data from WMI query.", out)
  else if negb (vt value =? VT_UI1) then
    VariantClear value ;;;
    ret (Status2 (-1) "Invalid data type returned.", out)
  else
    let out := bVal value in
    VariantClear value ;;;
    ret (Status1 0, out).

Definition GetUnsignedShort (this : WmiResultItem) (name : string) (out : Z)
  : M (Status * Z) :=
  let property_name := stringToWstring name in
  r <- call_Get (result_ this) property_name ;;
  let (hr, value) := r in
  if negb (hr =? S_OK) then
    ret (Status2 (-1) "Error retrieving data from WMI query.", out)
  else if negb (vt value =? VT_UI2) then
    VariantClear value ;;;
    ret (Status2 (-1) "Invalid data type returned.", out)
  else
    let out := uiVal value in
    VariantClear value ;;;
    ret (Status1 0, out).

Definition GetUnsignedInt32 (this : WmiResultItem) (name : string) (out : Z)
  : M (Status * Z) :=
  let property_name := stringToWstring name in
  r <- call_Get (result_ this) property_name ;;
  let (hr, value) := r in
  if negb (hr =? S_OK) then
    ret (Status2 (-1) "Error retrieving data from WMI query.", out)
  else if negb (vt value =? VT_UINT) then
    VariantClear value ;;;
    ret (Status2 (-1) "Invalid data type returned.", out)
  else
    let out := Int.unsigned 32 (uiVal value) in
    VariantClear value ;;;
    ret (Status1 0, out).

Definition GetLong (this : WmiResultItem) (name : string) (out : Z)
  : M (Status * Z) :=
  let property_name := stringToWstring name in
  r <- call_Get (result_ this) property_name ;;
  let (hr, value) := r in
  if negb (hr =? S_OK) then
    ret (Status2 (-1) "Error retrieving data from WMI query.", out)
  else if negb (vt value =? VT_I4) then
    VariantClear value ;;;
    ret (Status2 (-1) "Invalid data type returned.", out)
  else
    let out := lVal value in
    VariantClear value ;;;
    ret (Status1 0, out).

Definition GetUnsignedLong (this : WmiResultItem) (name : string) (out : Z)
  : M (Status * Z) :=
  let property_name := stringToWstring name in
  r <- call_Get (result_ this) property_name ;;
  let (hr, value) := r in
  if negb (hr =? S_OK) then
    ret (Status2 (-1) "Error retrieving data from WMI query.", out)
  else if negb (vt value =? VT_UI4) then
    VariantClear value ;;;
    ret (Status2 (-1) "Invalid data type returned.", out)
  else
    (* long to unsigned long, both 32 bits wide *)
    let out := Int.unsigned 32 (lVal value) in
    VariantClear value ;;;
    ret (Status1 0, out).

Definition GetLongLong (this : WmiResultItem) (name : string) (out : Z)
  : M (Status * Z) :=
  let property_name := stringToWstring name in
  r <- call_Get (result_ this) property_name ;;
  let (hr, value) := r in
  if negb (hr =? S_OK) then
    ret (Status2 (-1) "Error retrieving data from WMI query.", out)
  else if negb (vt value =? VT_I8) then
    VariantClear value ;;;
    ret (Status2 (-1) "Invalid data type returned.", out)
  else
    (* long to long long: sign extension *)
    let out := Int.signed 64 (lVal value) in
    VariantClear value ;;;
    ret (Status1 0, out).

Definition GetUnsignedLongLong (this : WmiResultItem) (name : string) (out : Z)
  : M (Status * Z) :=
  let property_name := stringToWstring name in
  r <- call_Get (result_ this) property_name ;;
  let (hr, value) := r in
  if negb (hr =? S_OK) then
    ret (Status2 (-1) "Error retrieving data from WMI query.", out)
  else if negb (vt value =? VT_UI8) then
    VariantClear value ;;;
    ret (Status2 (-1) "Invalid data type returned.", out)
  else
    (* long to unsigned long long: sign extension, then modulo 2^64 *)
    let out := Int.unsigned 64 (lVal value) in
    VariantClear value ;;;
    ret (Status1 0, out).

Definition GetString (this : WmiResultItem) (name : string) (out : string)
  : M (Status * string) :=
  let property_name := stringToWstring name in
  r <- call_Get (result_ this) property_name ;;
  let (hr, value) := r in
  if negb (hr =? S_OK) then
    let out := "" in
    ret (Status2 (-1) "Error retrieving data from WMI query.", out)
  else if negb (vt value =? VT_BSTR) then
    let out := "" in
    VariantClear value ;;;
    ret (Status2 (-1) "Invalid data type returned.", out)
  else
    let out := bstrToString (bstrVal value) in
    VariantClear value ;;;
    ret (Status1 0, out).

(** [for (long i = 0; i < count; i++) ret.push_back(bstrToString(pData[i]))],
    unrolled at most [n] times. *)
Fixpoint copy_loop (n : nat) (i count : Z) (pData : Z -> BSTR)
         (out : list string) : list string :=
  match n with
  | O => out
  | S n' =>
      if i <? count
      then copy_loop n' (i + 1) count pData (out ++ [bstrToString (pData i)])
      else out
  end.

(** [ret.reserve(count)]: a negative [long] converts to a [size_type]
    above [max_size()], and [reserve] throws. *)
Definition reserve (count : Z) : M unit :=
  if count <? 0 then crash LengthError else ret tt.

Definition GetVectorOfStrings (this : WmiResultItem) (name : string)
           (out : list string) : M (Status * list string) :=
  let property_name := stringToWstring name in
  r <- call_Get (result_ this) property_name ;;
  let (hr, value) := r in
  if negb (hr =? S_OK) then
    ret (Status2 (-1) "Error retrieving data from WMI query.", out)
  else if negb (vt value =? Z.lor VT_BSTR VT_ARRAY) then
    VariantClear value ;;;
    ret (Status2 (-1) "Invalid data type returned.", out)
  else
    let lbound := SafeArrayGetLBound (parray value) in
    let ubound := SafeArrayGetUBound (parray value) in
    let count := Int.signed 32 (ubound - lbound + 1) in
    let pData := SafeArrayAccessData (parray value) in
    emit Ev_SafeArrayAccessData ;;;
    reserve count ;;;
    let out := copy_loop (Z.to_nat count) 0 count pData out in
    emit Ev_SafeArrayUnaccessData ;;;
    VariantClear value ;;;
    ret (Status1 0, out).

(** *** The eleven getters as one family *)

Inductive Getter :=
| gBool | gUChar | gUnsignedShort | gUnsignedInt32 | gLong
| gUnsignedLong | gLongLong | gUnsignedLongLong | gString
| gVectorOfStrings | gDateTime (is_local : bool).

(** The type of a getter's output parameter. *)
Definition out_type (g : Getter) : Type :=
  match g with
  | gBool => bool
  | gString => string
  | gVectorOfStrings => list string
  | gDateTime _ => FILETIME
  | _ => Z
  end.

(** The tag a getter asks for. *)
Definition expected_vt (g : Getter) : VARTYPE :=
  match g with
  | gBool => VT_BOOL
  | gUChar => VT_UI1
  | gUnsignedShort => VT_UI2
  | gUnsignedInt32 => VT_UINT
  | gLong => VT_I4
  | gUnsignedLong => VT_UI4
  | gLongLong => VT_I8
  | gUnsignedLongLong => VT_UI8
  | gString => VT_BSTR
  | gVectorOfStrings => Z.lor VT_BSTR VT_ARRAY
  | gDateTime _ => VT_BSTR
  end.

Definition call (g : Getter)
  : WmiResultItem -> string -> out_type g -> M (Status * out_type g) :=
  match g with
  | gBool => GetBool
  | gUChar => GetUChar
  | gUnsignedShort => GetUnsignedShort
  | gUnsignedInt32 => GetUnsignedInt32
  | gLong => GetLong
  | gUnsignedLong => GetUnsignedLong
  | gLongLong => GetLongLong
  | gUnsignedLongLong => GetUnsignedLongLong
  | gString => GetString
  | gVectorOfStrings => GetVectorOfStrings
  | gDateTime is_local => fun this name => GetDateTime this name is_local
  end.

End Getters.

(** ** WmiRequest *)

Record WmiRequest := {
  status_ : Status;
  results_ : list WmiResultItem;
  enum_ : option IEnumWbemClassObject;
  locator_ : option IWbemLocator;
  services_ : option IWbemServices
}.

Definition set_status_ (s : Status) (r : WmiRequest) : WmiRequest :=
  {| status_ := s; results_ := results_ r; enum_ := enum_ r;
     locator_ := locator_ r; services_ := services_ r |}.
Definition set_results_ (l : list WmiResultItem) (r : WmiRequest) : WmiRequest :=
  {| status_ := status_ r; results_ := l; enum_ := enum_ r;
     locator_ := locator_ r; services_ := services_ r |}.
Definition set_enum_ (e : option IEnumWbemClassObject) (r : WmiRequest) : WmiRequest :=
  {| status_ := status_ r; results_ := results_ r; enum_ := e;
     locator_ := locator_ r; services_ := services_ r |}.
Definition set_locator_ (l : option IWbemLocator) (r : WmiRequest) : WmiRequest :=
  {| status_ := status_ r; results_ := results_ r; enum_ := enum_ r;
     locator_ := l; services_ := services_ r |}.
Definition set_services_ (s : option IWbemServices) (r : WmiRequest) : WmiRequest :=
  {| status_ := status_ r; results_ := results_ r; enum_ := enum_ r;
     locator_ := locator_ r; services_ := s |}.

(** Modelled from the spec: the class declaration (wmi.h) with the members'
    initial values is not among the sources.  Each of the three handles is
    null until it is acquired and the result sequence starts empty; the
    value of a default-constructed status is not fixed by the spec and
    stays a parameter, [status0]. *)
Definition members (status0 : Status) : WmiRequest :=
  {| status_ := status0; results_ := []; enum_ := None;
     locator_ := None; services_ := None |}.

(** [L"WQL"] *)
Definition L_WQL : BSTR := [87; 81; 76].

(** The drain loop, [while (hr == WBEM_S_NO_ERROR) { ... }]; [n] counts the
    pulls made so far. *)
Fixpoint drain (fuel : nat) (hr : HRESULT) (n : nat) (this : WmiRequest)
  : M WmiRequest :=
  match fuel with
  | O => crash OutOfFuel
  | S fuel' =>
      if hr =? WBEM_S_NO_ERROR then
        e <- deref (enum_ this) ;;
        let '(hr, result, result_count) := Next e n in
        emit (Ev_Next hr) ;;;
        let this :=
          if SUCCEEDED hr && (0 <? result_count)
          then set_results_ (results_ this ++ [ {| result_ := result |} ]) this
          else this in
        drain fuel' hr (S n) this
      else ret this
  end.

Section Request.
Context {E : Externals}.

(** [WmiRequest::WmiRequest(const std::string& query, BSTR nspace)] *)
Definition WmiRequest_ctor (fuel : nat) (status0 : Status)
           (query : string) (nspace : BSTR) : M WmiRequest :=
  let this := members status0 in
  let wql := stringToWstring query in
  let hr := CoInitializeSecurity in
  emit (Ev_CoInitializeSecurity hr) ;;;
  let (hr, p) := CoCreateInstance_WbemLocator in
  emit (Ev_CoCreateInstance CLSID_WbemLocator hr) ;;;
  let this := set_locator_ p this in
  if negb (hr =? S_OK) then
    ret (set_locator_ None this)
  else
    locator <- deref (locator_ this) ;;
    let (hr, p) := ConnectServer locator nspace in
    emit (Ev_ConnectServer hr) ;;;
    let this := set_services_ p this in
    if negb (hr =? S_OK) then
      ret (set_services_ None this)
    else
      services <- deref (services_ this) ;;
      let (hr, p) := ExecQuery services L_WQL wql in
      emit (Ev_ExecQuery hr) ;;;
      let this := set_enum_ p this in
      if negb (hr =? S_OK) then
        ret (set_enum_ None this)
      else
        let hr := WBEM_S_NO_ERROR in
        this <- drain fuel hr 0 this ;;
        ret (set_status_ (Status1 0) this).

End Request.

(** [WmiRequest::WmiRequest(WmiRequest&& src)]: the new request and what is
    left of [src].  The constructor has no initialiser list, so the members
    it does not name start as in [members]. *)
Definition WmiRequest_move (status0 : Status) (src : WmiRequest)
  : WmiRequest * WmiRequest :=
  let this := members status0 in
  (* locator_ = nullptr; std::swap(locator_, src.locator_); *)
  let this := set_locator_ None this in
  let (this, src) := (set_locator_ (locator_ src) this, set_locator_ (locator_ this) src) in
  (* services_ = nullptr; std::swap(services_, src.services_); *)
  let this := set_services_ None this in
  let (this, src) := (set_services_ (services_ src) this, set_services_ (services_ this) src) in
  (* enum_ = nullptr; std::swap(enum_, src.enum_); *)
  let this := set_enum_ None this in
  let (this, src) := (set_enum_ (enum_ src) this, set_enum_ (enum_ this) src) in
  (this, src).

(** [results_.clear()]: every element is destroyed. *)
Fixpoint clear (l : list WmiResultItem) : M (list WmiResultItem) :=
  match l with
  | [] => ret []
  | x :: l' => WmiResultItem_dtor x ;;; clear l'
  end.

(** [WmiRequest::~WmiRequest()] *)
Definition WmiRequest_dtor (this : WmiRequest) : M WmiRequest :=
  l <- clear (results_ this) ;;
  let this := set_results_ l this in
  this <- match enum_ this with
          | Some _ => emit (Ev_Release I_EnumWbemClassObject) ;;;
                      ret (set_enum_ None this)
          | None => ret this
          end ;;
  this <- match services_ this with
          | Some _ => emit (Ev_Release I_WbemServices) ;;;
                      ret (set_services_ None this)
          | None => ret this
          end ;;
  match locator_ this with
  | Some _ => emit (Ev_Release I_WbemLocator) ;;;
              ret (set_locator_ None this)
  | None => ret this
  end.

(** ** What the properties are stated with *)

Definition is_VariantClear (e : Event) : bool :=
  match e with Ev_VariantClear => true | _ => false end.
Definition is_helper_release (e : Event) : bool :=
  match e with Ev_Release I_SWbemDateTime => true | _ => false end.
Definition is_SysFreeString (e : Event) : bool :=
  match e with Ev_SysFreeString => true | _ => false end.
Definition is_Get (e : Event) : bool :=
  match e with Ev_Get _ => true | _ => false end.

(** What a type mismatch leaves in the output parameter: [GetString]
    assigns the empty string, the other getters assign nothing. *)
Definition after_mismatch (g : Getter) : out_type g -> out_type g :=
  match g return out_type g -> out_type g with
  | gString => fun _ => ""
  | _ => fun out => out
  end.

(** The stages of the constructor that can end it early. *)
Inductive Stage := Connect | Bind | Execute.

Definition fails_at {E : Externals} (s : Stage) (query : string) (nspace : BSTR) : Prop :=
  match s with
  | Connect =>
      fst CoCreateInstance_WbemLocator <> S_OK
  | Bind =>
      exists loc,
        CoCreateInstance_WbemLocator = (S_OK, Some loc) /\
        fst (ConnectServer loc nspace) <> S_OK
  | Execute =>
      exists loc svc,
        CoCreateInstance_WbemLocator = (S_OK, Some loc) /\
        ConnectServer loc nspace = (S_OK, Some svc) /\
        fst (ExecQuery svc L_WQL (stringToWstring query)) <> S_OK
  end.


(** The three stages all succeed, giving the enumerator [en]. *)
Definition connected {E : Externals} (query : string) (nspace : BSTR)
           (en : IEnumWbemClassObject) : Prop :=
  exists loc svc,
    CoCreateInstance_WbemLocator = (S_OK, Some loc) /\
    ConnectServer loc nspace = (S_OK, Some svc) /\
    ExecQuery svc L_WQL (stringToWstring query) = (S_OK, Some en).

(** ** Sample inputs *)

Definition ascii_to_wide (s : string) : wstring :=
  map (fun c => Z.of_N (Ascii.N_of_ascii c)) (list_ascii_of_string s).

Definition wide_to_ascii (w : BSTR) : string :=
  string_of_list_ascii (map (fun z => Ascii.ascii_of_N (Z.to_N z)) w).

Fixpoint parse_digits (acc : Z) (w : BSTR) : Z :=
  match w with
  | [] => acc
  | c :: w' =>
      if (48 <=? c) && (c <=? 57) then parse_digits (10 * acc + (c - 48)) w'
      else acc
  end.

Definition sample_datetime : ISWbemDateTime :=
  {| put_Value := fun _ => S_OK;
     GetFileTime := fun value _ => (S_OK, value) |}.

Definition sample_externals (loc : HRESULT * option IWbemLocator) : Externals :=
  {| stringToWstring := ascii_to_wide;
     bstrToString := wide_to_ascii;
     wtoi64 := parse_digits 0;
     CoInitializeSecurity := S_OK;
     CoCreateInstance_WbemLocator := loc;
     CoCreateInstance_SWbemDateTime := (S_OK, sample_datetime) |}.

(** A COM runtime in which the locator cannot be created. *)
Definition com_down : Externals := sample_externals (E_FAIL, None).

Definition sample_array (l u : Z) : SAFEARRAY :=
  {| SafeArrayGetLBound := l;
     SafeArrayGetUBound := u;
     SafeArrayAccessData := fun i => [97 + i] |}.

Definition sample_variant (tag : VARTYPE) (bits : Z) : VARIANT :=
  {| vt := tag; raw := bits; bstrVal := ascii_to_wide "20190101";
     parray := sample_array 0 2 |}.

(** A string-array property with bounds [l] and [u]. *)
Definition array_variant (l u : Z) : VARIANT :=
  {| vt := Z.lor VT_BSTR VT_ARRAY; raw := 0; bstrVal := [];
     parray := sample_array l u |}.

(** An object on which every lookup answers [hr] with [v]. *)
Definition object_with (hr : HRESULT) (v : VARIANT) : IWbemClassObject :=
  {| Get := fun _ => (hr, v) |}.

Definition item_with (hr : HRESULT) (v : VARIANT) : WmiResultItem :=
  {| result_ := Some (object_with hr v) |}.

Definition empty_item : WmiResultItem := {| result_ := None |}.

(** An enumerator that yields the objects of [objs] and then fails. *)
Definition enum_of (objs : list IWbemClassObject) : IEnumWbemClassObject :=
  {| Next := fun n =>
       match nth_error objs n with
       | Some o => (WBEM_S_NO_ERROR, Some o, 1)
       | None => (E_FAIL, None, 0)
       end |}.

Definition services_of (hr : HRESULT) (objs : list IWbemClassObject) : IWbemServices :=
  {| ExecQuery := fun _ _ => (hr, Some (enum_of objs)) |}.

Definition locator_of (hr_bind hr_exec : HRESULT) (objs : list IWbemClassObject)
  : IWbemLocator :=
  {| ConnectServer := fun _ => (hr_bind, Some (services_of hr_exec objs)) |}.

(** A COM runtime whose query yields [objs]. *)
Definition com_up (objs : list IWbemClassObject) : Externals :=
  sample_externals (S_OK, Some (locator_of S_OK S_OK objs)).

(** A COM runtime in which the namespace cannot be bound. *)
Definition com_unbound : Externals :=
  sample_externals (S_OK, Some (locator_of E_FAIL S_OK [])).

Definition two_objects : list IWbemClassObject :=
  [ object_with S_OK (sample_variant VT_I4 1);
    object_with S_OK (sample_variant VT_I4 2) ].

Definition root_cimv2 : BSTR := ascii_to_wide "ROOT\CIMV2".


Definition wrap (o : IWbemClassObject) : WmiResultItem := {| result_ := Some o |}.

(** The request that a query yielding [two_objects] constructs. *)
Definition sample_request : WmiRequest :=
  {| status_ := Status1 0;
     results_ := map wrap two_objects;
     enum_ := Some (enum_of two_objects);
     locator_ := Some (locator_of S_OK S_OK two_objects);
     services_ := Some (services_of S_OK two_objects) |}.

Definition is_connection_release (e : Event) : bool :=
  match e with
  | Ev_Release (I_EnumWbemClassObject | I_WbemServices | I_WbemLocator) => true
  | _ => false
  end.

(** ** PrintType

    What [PrintType] sends to the three streams, item by item as the
    [<<] insertions give them. *)
Inductive Printed :=
| P_str (s : string)
| P_num (n : Z)
| P_wstr (w : BSTR).

Record Console := {
  cerr : list Printed;
  cout : list Printed;
  wcout : list Printed
}.

Definition to_cerr (l : list Printed) (con : Console) : Console :=
  {| cerr := cerr con ++ l; cout := cout con; wcout := wcout con |}.
Definition to_cout (l : list Printed) (con : Console) : Console :=
  {| cerr := cerr con; cout := cout con ++ l; wcout := wcout con |}.
Definition to_wcout (l : list Printed) (con : Console) : Console :=
  {| cerr := cerr con; cout := cout con; wcout := wcout con ++ l |}.

(** ["\n"] *)
Definition nl : string := String (Ascii.ascii_of_nat 10) EmptyString.

(** [WmiResultItem::PrintType]: [VariantClear] is called on both
    branches. *)
Definition PrintType {E : Externals} (this : WmiResultItem) (name : string)
           (con : Console) : M Console :=
  let property_name := stringToWstring name in
  r <- call_Get (result_ this) property_name ;;
  let (hr, value) := r in
  let con :=
    if negb (hr =? S_OK) then
      to_cerr [P_str "Failed: "; P_str name; P_str nl] con
    else
      let con :=
        to_cout [P_str "Name="; P_str name; P_str ", Type="; P_num (vt value);
                 P_str nl] con in
      if vt value =? VT_I4 then
        to_cout [P_str "  Value="; P_num (lVal value); P_str nl] con
      else if vt value =? VT_BSTR then
        to_wcout [P_str "  Value="; P_wstr (bstrVal value); P_str nl] con
      else con in
  VariantClear value ;;;
  ret con.

(** ** More vocabulary for the properties *)

Definition WBEM_S_FALSE : HRESULT := 1.

Definition is_Next (e : Event) : bool :=
  match e with Ev_Next _ => true | _ => false end.
Definition is_SafeArrayAccessData (e : Event) : bool :=
  match e with Ev_SafeArrayAccessData => true | _ => false end.
Definition is_SafeArrayUnaccessData (e : Event) : bool :=
  match e with Ev_SafeArrayUnaccessData => true | _ => false end.

(** The result item the loop keeps from a pull, if any. *)
Definition kept (answer : HRESULT * option IWbemClassObject * Z)
  : list WmiResultItem :=
  let '(hr, result, result_count) := answer in
  if SUCCEEDED hr && (0 <? result_count) then [ {| result_ := result |} ] else [].

(** The release calls that destroying the items of [l] makes. *)
Definition object_releases (l : list WmiResultItem) : list Event :=
  flat_map (fun x => match result_ x with
                     | Some _ => [Ev_Release I_WbemClassObject]
                     | None => []
                     end) l.

(** The release calls the destructor makes on the handles [this] holds. *)
Definition handle_releases (this : WmiRequest) : list Event :=
  (match enum_ this with
   | Some _ => [Ev_Release I_EnumWbemClassObject] | None => [] end)
  ++ (match services_ this with
      | Some _ => [Ev_Release I_WbemServices] | None => [] end)
  ++ (match locator_ this with
      | Some _ => [Ev_Release I_WbemLocator] | None => [] end).

(** A request after its destructor has run. *)
Definition destroyed (this : WmiRequest) : WmiRequest :=
  {| status_ := status_ this; results_ := []; enum_ := None;
     locator_ := None; services_ := None |}.

(** A release call on an interface of kind [i]. *)
Definition is_release_of (i : Interface) (e : Event) : bool :=
  match i, e with
  | I_WbemClassObject, Ev_Release I_WbemClassObject => true
  | I_EnumWbemClassObject, Ev_Release I_EnumWbemClassObject => true
  | I_WbemServices, Ev_Release I_WbemServices => true
  | I_WbemLocator, Ev_Release I_WbemLocator => true
  | I_SWbemDateTime, Ev_Release I_SWbemDateTime => true
  | _, _ => false
  end.

(** A call of the constructor that hands out a connection handle of kind
    [i]: the one that answers S_OK. *)
Definition handed_out (i : Interface) (e : Event) : bool :=
  match i, e with
  | I_WbemLocator, Ev_CoCreateInstance CLSID_WbemLocator hr => hr =? S_OK
  | I_WbemServices, Ev_ConnectServer hr => hr =? S_OK
  | I_EnumWbemClassObject, Ev_ExecQuery hr => hr =? S_OK
  | _, _ => false
  end.



(** ** More sample inputs *)

(** An enumerator that yields the objects of [objs] and then reports that
    there are no more, with an answer that still carries [last]. *)
Definition enum_then (objs : list IWbemClassObject)
           (last : HRESULT * option IWbemClassObject * Z) : IEnumWbemClassObject :=
  {| Next := fun n =>
       match nth_error objs n with
       | Some o => (WBEM_S_NO_ERROR, Some o, 1)
       | None => last
       end |}.

(** An enumerator that never stops answering WBEM_S_NO_ERROR. *)
Definition enum_endless : IEnumWbemClassObject :=
  {| Next := fun _ => (WBEM_S_NO_ERROR, None, 0) |}.

Definition com_with (hr_init : HRESULT) (en : IEnumWbemClassObject) : Externals :=
  {| stringToWstring := ascii_to_wide;
     bstrToString := wide_to_ascii;
     wtoi64 := parse_digits 0;
     CoInitializeSecurity := hr_init;
     CoCreateInstance_WbemLocator :=
       (S_OK, Some {| ConnectServer := fun _ =>
                        (S_OK, Some {| ExecQuery := fun _ _ => (S_OK, Some en) |}) |});
     CoCreateInstance_SWbemDateTime := (S_OK, sample_datetime) |}.

Definition empty_console : Console := {| cerr := []; cout := []; wcout := [] |}.

(** * Properties *)

Unset Implicit Arguments.

(** ** Proof tools *)

Ltac unfold_getters :=
  unfold call, GetBool, GetUChar, GetUnsignedShort, GetUnsignedInt32, GetLong,
    GetUnsignedLong, GetLongLong, GetUnsignedLongLong, GetString,
    GetVectorOfStrings, GetDateTime, call_Get, VariantClear, reserve.

Ltac unfold_monad :=
  unfold run, outcome, trace, deref, crash, bind, ret, emit.

(** Unfold a getter on an item known to hold [obj] ([Hobj]) and step over
    the lookup. *)
Ltac enter_getter Hobj :=
  unfold_getters; unfold_monad; rewrite Hobj; cbv beta iota zeta.

(** Decide a test of the code one way from a hypothesis about the result
    code or the tag. *)
Lemma eqb_S_OK_false (hr : HRESULT) : hr <> S_OK -> (hr =? S_OK) = false.
Proof. intro H. now apply Z.eqb_neq. Qed.

Lemma eqb_vt_false (a b : VARTYPE) : a <> b -> (a =? b) = false.
Proof. intro H. now apply Z.eqb_neq. Qed.

Section GetterProperties.
Context {E : Externals}.

Lemma call_on_null (g : Getter) (this : WmiResultItem) (name : string)
      (out : out_type g) :
  result_ this = None ->
  run (call g this name out) = ([], NullDereference).
Proof.
  intro Hnull.
  destruct g; unfold_getters; unfold_monad; rewrite Hnull; reflexivity.
Qed.

Lemma call_lookup_failure (g : Getter) (this : WmiResultItem) (name : string)
      (out : out_type g) (obj : IWbemClassObject) :
  result_ this = Some obj ->
  fst (Get obj (stringToWstring name)) <> S_OK ->
  exists st out',
    run (call g this name out)
      = ([Ev_Get (fst (Get obj (stringToWstring name)))], Returned (st, out')) /\
    error_kind st = Some RetrievalError.
Proof.
  intros Hobj Hhr.
  destruct g; enter_getter Hobj;
    destruct (Get obj (stringToWstring name)) as [hr v]; cbn [fst snd] in *;
    rewrite (eqb_S_OK_false _ Hhr); cbn [negb app];
    eexists; eexists; (split; [reflexivity | reflexivity]).
Qed.

(** C1, as the code has it.  No getter tests its handle: on an empty
    (moved-from) item, whose handle is null, every getter dereferences
    the null handle before anything else and returns no status at all.
    On an item that holds an object, a lookup that fails makes every
    getter return a status of kind RetrievalError. *)
Theorem getter_retrieval_error (g : Getter) (this : WmiResultItem)
        (name : string) (out : out_type g) :
  (result_ this = None ->
   outcome (call g this name out) = NullDereference) /\
  (forall obj,
      result_ this = Some obj ->
      fst (Get obj (stringToWstring name)) <> S_OK ->
      exists st out',
        outcome (call g this name out) = Returned (st, out') /\
        error_kind st = Some RetrievalError).
Proof.
  split.
  - intro Hnull. unfold outcome. now rewrite call_on_null.
  - intros obj Hobj Hhr.
    destruct (call_lookup_failure g this name out obj Hobj Hhr)
      as (st & out' & Hrun & Hkind).
    exists st, out'. unfold outcome. now rewrite Hrun.
Qed.

(** C2, as the code has it.  When the property's tag differs from the tag
    the getter asks for, the getter returns a status of kind
    TypeMismatchError; the output parameter keeps the value it had, except
    in GetString, which assigns it the empty string. *)
Theorem getter_type_mismatch (g : Getter) (this : WmiResultItem)
        (name : string) (out : out_type g)
        (obj : IWbemClassObject) (v : VARIANT) :
  result_ this = Some obj ->
  Get obj (stringToWstring name) = (S_OK, v) ->
  vt v <> expected_vt g ->
  exists st,
    outcome (call g this name out) = Returned (st, after_mismatch g out) /\
    error_kind st = Some TypeMismatchError.
Proof.
  intros Hobj Hget Htag.
  destruct g; enter_getter Hobj; rewrite Hget;
    cbn [fst snd expected_vt] in *;
    rewrite Z.eqb_refl, (eqb_vt_false _ _ Htag); cbn [negb app];
    eexists; (split; [reflexivity | reflexivity]).
Qed.

End GetterProperties.

(** The item a move leaves behind is empty. *)
Lemma moved_from_is_empty (src : WmiResultItem) :
  result_ (snd (WmiResultItem_move src)) = None /\
  result_ (fst (WmiResultItem_move src)) = result_ src.
Proof. split; reflexivity. Qed.

(** C1 fails as stated: GetBool on an empty item returns no status, so in
    particular no RetrievalError. *)
Lemma getter_on_empty_item_no_status :
  result_ empty_item = None /\
  ~ exists st out',
      outcome (GetBool (E := com_down) empty_item "Name" false) = Returned (st, out').
Proof.
  split; [reflexivity |].
  intros (st & out' & H). discriminate H.
Qed.

Lemma getter_retrieval_error_witness :
  outcome (call (E := com_down) gBool empty_item "Name" false) = NullDereference /\
  exists st out',
    outcome (call (E := com_down) gBool (item_with E_FAIL (sample_variant VT_BOOL 0)) "Name" false)
      = Returned (st, out') /\
    error_kind st = Some RetrievalError.
Proof.
  split.
  - apply (proj1 (getter_retrieval_error (E := com_down) gBool empty_item "Name" false)).
    reflexivity.
  - apply (proj2 (getter_retrieval_error (E := com_down) gBool
                    (item_with E_FAIL (sample_variant VT_BOOL 0)) "Name" false)
             (object_with E_FAIL (sample_variant VT_BOOL 0))).
    + reflexivity.
    + vm_compute. discriminate.
Defined.

(** C2 fails as stated: on a property tagged VT_I4, GetString returns a
    type mismatch and replaces the caller's string by the empty one. *)
Lemma GetString_mismatch_clears_output :
  vt (sample_variant VT_I4 7) <> expected_vt gString /\
  exists st out',
    outcome (GetString (E := com_down) (item_with S_OK (sample_variant VT_I4 7)) "Name" "abc")
      = Returned (st, out') /\
    error_kind st = Some TypeMismatchError /\
    out' <> "abc".
Proof.
  split; [vm_compute; discriminate |].
  eexists; eexists. split; [reflexivity |]. split; [reflexivity | discriminate].
Qed.

Lemma getter_type_mismatch_witness :
  exists st,
    outcome (call (E := com_down) gLong (item_with S_OK (sample_variant VT_BSTR 7)) "Name" 5)
      = Returned (st, 5) /\
    error_kind st = Some TypeMismatchError.
Proof.
  apply (getter_type_mismatch (E := com_down) gLong
           (item_with S_OK (sample_variant VT_BSTR 7)) "Name" 5
           (object_with S_OK (sample_variant VT_BSTR 7))
           (sample_variant VT_BSTR 7)).
  - reflexivity.
  - reflexivity.
  - vm_compute. discriminate.
Defined.

(** ** Integer views *)

Lemma signed_32_small (x : Z) :
  0 <= x <= Int.LONG_MAX -> Int.signed 32 x = x.
Proof.
  unfold Int.LONG_MAX, Int.signed. intro H.
  rewrite Z.mod_small by (change (2 ^ 32) with 4294967296; lia).
  change (2 ^ (32 - 1)) with 2147483648.
  destruct (Z.ltb_spec x 2147483648); [reflexivity | lia].
Qed.

(** ** GetVectorOfStrings *)

Section VectorProperties.
Context {E : Externals}.

Lemma copy_loop_app (pData : Z -> BSTR) (count : Z) :
  forall (n : nat) (i : Z) (out : list string),
    0 <= i ->
    i + Z.of_nat n = count ->
    copy_loop n i count pData out
    = out ++ map (fun k => bstrToString (pData (Z.of_nat k))) (seq (Z.to_nat i) n).
Proof.
  induction n as [| n IH]; intros i out Hi Hcount.
  - simpl. now rewrite app_nil_r.
  - cbn [copy_loop].
    destruct (Z.ltb_spec i count) as [_ | Hge]; [| lia].
    rewrite IH by lia.
    rewrite <- app_assoc. cbn [seq map app].
    rewrite Z2Nat.id by lia.
    replace (Z.to_nat (i + 1)) with (S (Z.to_nat i)) by lia.
    reflexivity.
Qed.

Lemma elements_length (a : SAFEARRAY) :
  0 <= SafeArrayGetUBound a - SafeArrayGetLBound a + 1 ->
  Z.of_nat (List.length (elements a))
  = SafeArrayGetUBound a - SafeArrayGetLBound a + 1.
Proof.
  intro H. unfold elements. rewrite length_map, length_seq. lia.
Qed.

(** The success path of GetVectorOfStrings, with its log. *)
Lemma GetVectorOfStrings_success (this : WmiResultItem) (name : string)
      (out : list string) (obj : IWbemClassObject) (v : VARIANT) :
  result_ this = Some obj ->
  Get obj (stringToWstring name) = (S_OK, v) ->
  vt v = Z.lor VT_BSTR VT_ARRAY ->
  0 <= SafeArrayGetUBound (parray v) - SafeArrayGetLBound (parray v) + 1
    <= Int.LONG_MAX ->
  run (GetVectorOfStrings this name out)
  = ([Ev_Get S_OK; Ev_SafeArrayAccessData; Ev_SafeArrayUnaccessData;
      Ev_VariantClear],
     Returned (Status1 0, out ++ map bstrToString (elements (parray v)))).
Proof.
  intros Hobj Hget Htag Hrange.
  enter_getter Hobj. rewrite Hget. cbn [fst snd].
  rewrite Htag, !Z.eqb_refl. cbn [negb].
  rewrite (signed_32_small _ Hrange).
  destruct (Z.ltb_spec
              (SafeArrayGetUBound (parray v) - SafeArrayGetLBound (parray v) + 1) 0)
    as [Hneg | _]; [lia |].
  rewrite copy_loop_app by lia.
  unfold elements. rewrite map_map. reflexivity.
Qed.

(** C8.  On a property tagged as a string array with lower bound [L] and
    upper bound [U], GetVectorOfStrings takes [U - L + 1] as the element
    count, copies every element of the array to the output in the
    array's order and returns success; with bounds (0, N-1) the output
    gains exactly N elements.  (The count is a [long]: [U - L + 1] is
    taken to be a count a [long] can hold.) *)
Theorem GetVectorOfStrings_copies_array (this : WmiResultItem) (name : string)
        (out : list string) (obj : IWbemClassObject) (v : VARIANT) (L U : Z) :
  result_ this = Some obj ->
  Get obj (stringToWstring name) = (S_OK, v) ->
  vt v = Z.lor VT_BSTR VT_ARRAY ->
  SafeArrayGetLBound (parray v) = L ->
  SafeArrayGetUBound (parray v) = U ->
  0 <= U - L + 1 <= Int.LONG_MAX ->
  exists copied,
    outcome (GetVectorOfStrings this name out)
      = Returned (Status1 0, out ++ copied) /\
    Z.of_nat (List.length copied) = U - L + 1 /\
    (forall i, 0 <= i < U - L + 1 ->
       nth_error copied (Z.to_nat i)
       = Some (bstrToString (SafeArrayAccessData (parray v) i))) /\
    (forall N, L = 0 -> U = N - 1 -> List.length copied = Z.to_nat N).
Proof.
  intros Hobj Hget Htag HL HU Hrange. subst L U.
  exists (map bstrToString (elements (parray v))).
  split; [| split; [| split]].
  - unfold outcome. now rewrite (GetVectorOfStrings_success _ _ out _ _ Hobj Hget Htag Hrange).
  - rewrite length_map. apply elements_length. lia.
  - intros i Hi. unfold elements. rewrite map_map.
    rewrite nth_error_map, nth_error_seq.
    destruct (Nat.ltb_spec (Z.to_nat i)
                (Z.to_nat (SafeArrayGetUBound (parray v)
                           - SafeArrayGetLBound (parray v) + 1))) as [_ | Hge];
      [| lia].
    cbn [option_map Nat.add]. now rewrite Z2Nat.id by lia.
  - intros N HL HU. rewrite length_map. unfold elements.
    rewrite length_map, length_seq. f_equal. lia.
Qed.

(** C10.  On success GetVectorOfStrings does not clear the caller's
    vector: the vector after the call is the vector before it followed by
    the array's elements, and every element it held before is still in
    its place. *)
Theorem GetVectorOfStrings_appends (this : WmiResultItem) (name : string)
        (out : list string) (obj : IWbemClassObject) (v : VARIANT) :
  result_ this = Some obj ->
  Get obj (stringToWstring name) = (S_OK, v) ->
  vt v = Z.lor VT_BSTR VT_ARRAY ->
  0 <= SafeArrayGetUBound (parray v) - SafeArrayGetLBound (parray v) + 1
    <= Int.LONG_MAX ->
  exists out',
    outcome (GetVectorOfStrings this name out) = Returned (Status1 0, out') /\
    out' = out ++ map bstrToString (elements (parray v)) /\
    firstn (List.length out) out' = out /\
    (forall i x, nth_error out i = Some x -> nth_error out' i = Some x).
Proof.
  intros Hobj Hget Htag Hrange.
  exists (out ++ map bstrToString (elements (parray v))).
  split; [| split; [| split]].
  - unfold outcome. now rewrite (GetVectorOfStrings_success _ _ out _ _ Hobj Hget Htag Hrange).
  - reflexivity.
  - rewrite firstn_app, Nat.sub_diag, firstn_all. cbn [firstn]. apply app_nil_r.
  - intros i x Hx. rewrite nth_error_app1; [exact Hx |].
    apply nth_error_Some. now rewrite Hx.
Qed.

(** C7, as the code has it.  An array with bound pair (0,0) holds one
    element: GetVectorOfStrings returns success and the output gains that
    one element.  The output gains nothing when the upper bound is one
    below the lower bound, as with (0,-1). *)
Theorem GetVectorOfStrings_bounds_0_0 (this : WmiResultItem) (name : string)
        (out : list string) (obj : IWbemClassObject) (v : VARIANT) :
  result_ this = Some obj ->
  Get obj (stringToWstring name) = (S_OK, v) ->
  vt v = Z.lor VT_BSTR VT_ARRAY ->
  SafeArrayGetLBound (parray v) = 0 ->
  (SafeArrayGetUBound (parray v) = 0 ->
   outcome (GetVectorOfStrings this name out)
   = Returned (Status1 0,
               out ++ [bstrToString (SafeArrayAccessData (parray v) 0)])) /\
  (SafeArrayGetUBound (parray v) = -1 ->
   outcome (GetVectorOfStrings this name out) = Returned (Status1 0, out)).
Proof.
  intros Hobj Hget Htag HL.
  split; intro HU; unfold outcome;
    rewrite (GetVectorOfStrings_success _ _ out _ _ Hobj Hget Htag)
      by (rewrite HL, HU; unfold Int.LONG_MAX; lia);
    unfold elements; rewrite HL, HU; cbn [snd].
  - reflexivity.
  - cbn. now rewrite app_nil_r.
Qed.

End VectorProperties.

(** ** Releases *)

(** Split on every test and every external answer a getter meets. *)
Ltac split_paths :=
  repeat match goal with
    | |- context [if negb ?b then _ else _] =>
        let Hb := fresh "Hb" in destruct b eqn:Hb; cbn [negb]
    | |- context [if ?x <? ?y then _ else _] =>
        let Hb := fresh "Hb" in destruct (x <? y) eqn:Hb
    | |- context [let (_, _) := ?p in _] =>
        let Hp := fresh "Hp" in destruct p eqn:Hp
    end.

Section ReleaseProperties.
Context {E : Externals}.

(** C9, as the code has it.  On every path on which a getter returns, it
    has made one lookup, and it has released the property payload once
    when the lookup succeeded (success, type mismatch and every later
    failure) and not at all when the lookup failed, the one case with a
    RetrievalError status: a failed lookup hands out no payload.  In
    GetDateTime the helper object and the rendered string are each
    released as often as they were created, which is at most once. *)
Theorem getter_releases (g : Getter) (this : WmiResultItem) (name : string)
        (out : out_type g) (t : list Event) (st : Status) (out' : out_type g) :
  run (call g this name out) = (t, Returned (st, out')) ->
  count is_Get t = 1%nat /\
  count is_VariantClear t = count payload_created t /\
  count is_VariantClear t
    = match error_kind st with Some RetrievalError => 0%nat | _ => 1%nat end /\
  count is_helper_release t = count helper_created t /\
  count is_SysFreeString t = count buffer_created t /\
  (count helper_created t <= 1)%nat /\
  (count buffer_created t <= 1)%nat.
Proof.
  destruct (result_ this) as [obj |] eqn:Hobj.
  2:{ rewrite call_on_null by exact Hobj. discriminate. }
  destruct g; enter_getter Hobj; split_paths; cbn [app];
    intro H; inversion H; subst; clear H;
    unfold count;
    cbn [filter is_Get is_VariantClear payload_created is_helper_release
         helper_created is_SysFreeString buffer_created List.length];
    rewrite ?Hb, ?Hb0, ?Hb1, ?Hb2, ?Hb3;
    cbn [filter List.length];
    repeat split; try reflexivity; try lia.
Qed.

End ReleaseProperties.

(** ** The 64-bit getters *)

Section WideGetters.
Context {E : Externals}.

(** What the two 64-bit getters hand out on success: the [lVal] member,
    that is the low 32 bits of the payload, sign-extended. *)
Lemma GetLongLong_success (this : WmiResultItem) (name : string) (out : Z)
      (obj : IWbemClassObject) (v : VARIANT) :
  result_ this = Some obj ->
  Get obj (stringToWstring name) = (S_OK, v) ->
  vt v = VT_I8 ->
  run (GetLongLong this name out)
  = ([Ev_Get S_OK; Ev_VariantClear], Returned (Status1 0, Int.signed 64 (lVal v))).
Proof.
  intros Hobj Hget Htag. enter_getter Hobj. rewrite Hget. cbn [fst snd].
  rewrite Htag. reflexivity.
Qed.

Lemma GetUnsignedLongLong_success (this : WmiResultItem) (name : string) (out : Z)
      (obj : IWbemClassObject) (v : VARIANT) :
  result_ this = Some obj ->
  Get obj (stringToWstring name) = (S_OK, v) ->
  vt v = VT_UI8 ->
  run (GetUnsignedLongLong this name out)
  = ([Ev_Get S_OK; Ev_VariantClear], Returned (Status1 0, Int.unsigned 64 (lVal v))).
Proof.
  intros Hobj Hget Htag. enter_getter Hobj. rewrite Hget. cbn [fst snd].
  rewrite Htag. reflexivity.
Qed.

End WideGetters.

(** C4 does not hold of the code.  GetLongLong and GetUnsignedLongLong
    assign [value.lVal], the 32-bit member of the union, where the payload
    is 64 bits wide.  A signed payload of 2^32 comes out as 0, and an
    unsigned payload of 2^32 - 1 comes out as 2^64 - 1; in both calls the
    payload is released once and the status is success. *)
Theorem wide_getters_read_lVal :
  llVal (sample_variant VT_I8 4294967296) = 4294967296 /\
  run (GetLongLong (E := com_down)
         (item_with S_OK (sample_variant VT_I8 4294967296)) "Name" 7)
  = ([Ev_Get S_OK; Ev_VariantClear], Returned (Status1 0, 0)) /\
  ullVal (sample_variant VT_UI8 4294967295) = 4294967295 /\
  run (GetUnsignedLongLong (E := com_down)
         (item_with S_OK (sample_variant VT_UI8 4294967295)) "Name" 7)
  = ([Ev_Get S_OK; Ev_VariantClear], Returned (Status1 0, 18446744073709551615)).
Proof. repeat split; vm_compute; reflexivity. Qed.

(** ** WmiRequest *)

Section RequestProperties.
Context {E : Externals}.



End RequestProperties.

(** ** The drain loop *)

(** As long as the enumerator hands out the objects of [objs] and then
    fails, the loop ends after [length objs + 1] pulls with those objects
    appended in order. *)
Lemma drain_pulls (en : IEnumWbemClassObject) (hr : HRESULT)
      (p : option IWbemClassObject) (c : Z) :
  forall (objs : list IWbemClassObject) (fuel n : nat) (this : WmiRequest)
         (t : list Event),
    enum_ this = Some en ->
    (forall i o, nth_error objs i = Some o ->
       exists k, Next en (n + i) = (WBEM_S_NO_ERROR, Some o, k) /\ 0 < k) ->
    Next en (n + List.length objs) = (hr, p, c) ->
    hr < 0 ->
    (List.length objs + 2 <= fuel)%nat ->
    exists t' r,
      drain fuel WBEM_S_NO_ERROR n this t = (t', Returned r) /\
      results_ r = results_ this ++ map wrap objs /\
      status_ r = status_ this /\
      enum_ r = enum_ this /\
      locator_ r = locator_ this /\
      services_ r = services_ this.
Proof.
  induction objs as [| o objs IH]; intros fuel n this t Hen Hpull Hlast Hhr Hfuel.
  - destruct fuel as [| [| fuel]]; cbn [List.length] in *; try lia.
    rewrite Nat.add_0_r in Hlast.
    cbn [drain]. unfold_monad. rewrite Hen. cbv beta iota zeta.
    rewrite Z.eqb_refl, Hlast.
    replace (SUCCEEDED hr) with false
      by (unfold SUCCEEDED; symmetry; apply Z.leb_gt; exact Hhr).
    cbn [andb].
    replace (hr =? WBEM_S_NO_ERROR) with false
      by (symmetry; apply Z.eqb_neq; unfold WBEM_S_NO_ERROR; lia).
    eexists; eexists. split; [reflexivity |].
    cbn [map]. rewrite app_nil_r. repeat split; assumption.
  - destruct fuel as [| fuel]; cbn [List.length] in *; try lia.
    destruct (Hpull 0%nat o eq_refl) as (k & Hnext & Hk).
    rewrite Nat.add_0_r in Hnext.
    cbn [drain]. rewrite Z.eqb_refl.
    unfold bind at 1. unfold deref. rewrite Hen. unfold ret at 1.
    cbv beta iota zeta. rewrite Hnext.
    unfold bind at 1. unfold emit at 1. cbv beta iota zeta.
    replace (SUCCEEDED WBEM_S_NO_ERROR && (0 <? k)) with true
      by (symmetry; apply andb_true_intro; split;
          [reflexivity | apply Z.ltb_lt; exact Hk]).
    destruct (IH fuel (S n)
                (set_results_ (results_ this ++ [ {| result_ := Some o |} ]) this)
                (t ++ [Ev_Next WBEM_S_NO_ERROR]))
      as (t' & r & Hrun & Hres & Hst & He & Hl & Hs).
    + exact Hen.
    + intros i o' Hi. destruct (Hpull (S i) o' Hi) as (k' & Hk' & Hpos).
      exists k'. split; [| exact Hpos].
      now replace (S n + i)%nat with (n + S i)%nat by lia.
    + now replace (S n + List.length objs)%nat
        with (n + S (List.length objs))%nat by lia.
    + exact Hhr.
    + lia.
    + exists t', r. split; [exact Hrun |].
      cbn [set_results_ results_ status_ enum_ locator_ services_] in *.
      rewrite Hres, <- app_assoc. repeat split; congruence.
Qed.

Section DrainProperties.
Context {E : Externals}.

(** Past the three stages the constructor is the drain loop followed by
    the assignment of the success status. *)
Lemma WmiRequest_ctor_connected (fuel : nat) (status0 : Status)
      (query : string) (nspace : BSTR) (en : IEnumWbemClassObject) :
  connected query nspace en ->
  exists t this,
    enum_ this = Some en /\ results_ this = [] /\
    run (WmiRequest_ctor fuel status0 query nspace)
    = bind (drain fuel WBEM_S_NO_ERROR 0 this)
           (fun this => ret (set_status_ (Status1 0) this)) t.
Proof.
  intros (loc & svc & Hloc & Hbind & Hexec).
  unfold WmiRequest_ctor, run.
  rewrite Hloc. cbv beta iota zeta.
  unfold bind at 1. unfold emit at 1. cbv beta iota zeta.
  unfold bind at 1. unfold emit at 1. cbv beta iota zeta.
  rewrite Z.eqb_refl. cbn [negb set_locator_ locator_ members].
  unfold bind at 1. unfold deref, ret at 1. cbv beta iota zeta.
  rewrite Hbind. cbv beta iota zeta.
  unfold bind at 1. unfold emit at 1. cbv beta iota zeta.
  rewrite Z.eqb_refl. cbn [negb set_services_ services_].
  unfold bind at 1. unfold ret at 1. cbv beta iota zeta.
  rewrite Hexec. cbv beta iota zeta.
  unfold bind at 1. unfold emit at 1. cbv beta iota zeta.
  rewrite Z.eqb_refl. cbn [negb].
  eexists; eexists. split; [| split; [| reflexivity]]; reflexivity.
Qed.

(** C6.  When the three stages succeed and the enumerator yields the
    objects of [objs], in this order, before a pull fails, the
    constructor returns with exactly these objects as its results, in
    the same order, and with the success status; this for any number of
    objects, none included.  And whenever the three stages succeed and the
    constructor returns, that is whenever control reaches the end of the
    drain loop, however the enumeration ended and whatever was collected,
    its status is the success status. *)
Theorem WmiRequest_ctor_drains (status0 : Status)
        (query : string) (nspace : BSTR) (en : IEnumWbemClassObject) :
  connected query nspace en ->
  (forall (fuel : nat) (objs : list IWbemClassObject)
          (hr : HRESULT) (p : option IWbemClassObject) (c : Z),
      (forall i o, nth_error objs i = Some o ->
         exists k, Next en i = (WBEM_S_NO_ERROR, Some o, k) /\ 0 < k) ->
      Next en (List.length objs) = (hr, p, c) ->
      hr < 0 ->
      (List.length objs + 2 <= fuel)%nat ->
      exists r,
        outcome (WmiRequest_ctor fuel status0 query nspace) = Returned r /\
        results_ r = map wrap objs /\
        List.length (results_ r) = List.length objs /\
        status_ r = Status1 0) /\
  (forall fuel r,
      outcome (WmiRequest_ctor fuel status0 query nspace) = Returned r ->
      status_ r = Status1 0).
Proof.
  intros Hconn. split.
  - intros fuel objs hr p c Hpull Hlast Hhr Hfuel.
    destruct (WmiRequest_ctor_connected fuel status0 query nspace en Hconn)
      as (t & this & Hen & Hres & Hrun).
    destruct (drain_pulls en hr p c objs fuel 0 this t Hen Hpull Hlast Hhr Hfuel)
      as (t' & r & Hdrain & Hr & _).
    exists (set_status_ (Status1 0) r).
    unfold outcome. rewrite Hrun. unfold bind. rewrite Hdrain.
    cbn [ret snd set_status_ results_ status_].
    rewrite Hr, Hres. cbn [app]. rewrite length_map. repeat split.
  - intros fuel r Hout.
    destruct (WmiRequest_ctor_connected fuel status0 query nspace en Hconn)
      as (t & this & _ & _ & Hrun).
    unfold outcome in Hout. rewrite Hrun in Hout. unfold bind in Hout.
    destruct (drain fuel WBEM_S_NO_ERROR 0 this t) as [t' [r0 | | |]];
      cbn [ret snd] in Hout; try discriminate.
    inversion Hout. reflexivity.
Qed.

End DrainProperties.

(** ** Moving a request *)

Lemma clear_releases_objects (l : list WmiResultItem) :
  forall t, exists t',
    clear l t = (t', Returned []) /\
    count is_connection_release t' = count is_connection_release t.
Proof.
  induction l as [| x l IH]; intro t.
  - exists t. split; reflexivity.
  - cbn [clear]. unfold bind at 1. unfold WmiResultItem_dtor.
    destruct (result_ x).
    + unfold bind, emit, ret.
      destruct (IH (t ++ [Ev_Release I_WbemClassObject])) as (t' & Hrun & Hcount).
      exists t'. split; [exact Hrun |]. rewrite Hcount.
      unfold count. rewrite filter_app. cbn [filter is_connection_release].
      now rewrite app_nil_r.
    + unfold ret. apply IH.
Qed.

(** A request whose three handles are null is destroyed without a release
    call on a connection handle. *)
Lemma WmiRequest_dtor_null_handles (this : WmiRequest) :
  enum_ this = None -> services_ this = None -> locator_ this = None ->
  count is_connection_release (trace (WmiRequest_dtor this)) = 0%nat.
Proof.
  intros He Hs Hl.
  unfold trace, run, WmiRequest_dtor. unfold bind at 1.
  destruct (clear_releases_objects (results_ this) []) as (t' & Hrun & Hcount).
  rewrite Hrun.
  cbn [set_results_ enum_ services_ locator_]. rewrite He.
  unfold bind at 1. unfold ret at 1. cbn [services_ set_results_]. rewrite Hs.
  unfold bind at 1. unfold ret at 1. cbn [locator_ set_results_]. rewrite Hl.
  unfold ret. cbn [fst]. exact Hcount.
Qed.

(** What the move constructor does for any source: the three handles go to
    the new request and are null in the source, whose destructor then
    releases none of them. *)
Lemma WmiRequest_move_handles (status0 : Status) (src : WmiRequest) :
  let dst := fst (WmiRequest_move status0 src) in
  let src' := snd (WmiRequest_move status0 src) in
  locator_ dst = locator_ src /\ services_ dst = services_ src /\
  enum_ dst = enum_ src /\
  locator_ src' = None /\ services_ src' = None /\ enum_ src' = None /\
  count is_connection_release (trace (WmiRequest_dtor src')) = 0%nat.
Proof.
  cbv zeta. repeat split.
  apply WmiRequest_dtor_null_handles; reflexivity.
Qed.

(** And what it leaves out: the new request starts with no results and a
    default-constructed status, while the results stay with the source. *)
Lemma WmiRequest_move_results (status0 : Status) (src : WmiRequest) :
  results_ (fst (WmiRequest_move status0 src)) = [] /\
  status_ (fst (WmiRequest_move status0 src)) = status0 /\
  results_ (snd (WmiRequest_move status0 src)) = results_ src /\
  status_ (snd (WmiRequest_move status0 src)) = status_ src.
Proof. repeat split. Qed.

(** C5 does not hold of the code.  The move constructor swaps the three
    handles and nothing else.  Moving a request that holds two results
    gives a request with the three handles and with no result at all; the
    two results stay with the source, and destroying the source releases
    their two objects (and none of the three handles). *)
Theorem WmiRequest_move_drops_results (status0 : Status) :
  let dst := fst (WmiRequest_move status0 sample_request) in
  let src' := snd (WmiRequest_move status0 sample_request) in
  List.length (results_ sample_request) = 2%nat /\
  locator_ dst = locator_ sample_request /\
  services_ dst = services_ sample_request /\
  enum_ dst = enum_ sample_request /\
  locator_ src' = None /\ services_ src' = None /\ enum_ src' = None /\
  results_ dst = [] /\
  status_ dst = status0 /\
  results_ src' = results_ sample_request /\
  trace (WmiRequest_dtor src')
  = [Ev_Release I_WbemClassObject; Ev_Release I_WbemClassObject].
Proof. cbv zeta. repeat split. Qed.

(** [sample_request] is what the constructor builds when the query yields
    [two_objects]. *)
Lemma sample_request_constructed :
  outcome (WmiRequest_ctor (E := com_up two_objects) 4 (Status1 0) "q" root_cimv2)
  = Returned sample_request.
Proof. reflexivity. Qed.

(** ** The properties at sample inputs *)

(** The failure paths report whatever the default-constructed status is:
    were that status one of code 0, a request whose locator cannot be
    created would end with outcome code 0. *)
Lemma WmiRequest_ctor_failure_keeps_status :
  fails_at (E := com_down) Connect "SELECT * FROM Win32_Process" root_cimv2 /\
  exists r,
    outcome (WmiRequest_ctor (E := com_down) 2 (Status1 0)
               "SELECT * FROM Win32_Process" root_cimv2) = Returned r /\
    results_ r = [] /\
    getCode (status_ r) = 0.
Proof.
  split.
  - vm_compute. discriminate.
  - eexists. split; [reflexivity |]. split; reflexivity.
Qed.


Lemma WmiRequest_ctor_drains_witness :
  connected (E := com_up two_objects)
            "SELECT * FROM Win32_Process" root_cimv2 (enum_of two_objects) /\
  (exists r,
      outcome (WmiRequest_ctor (E := com_up two_objects) 4 (Status2 1 "unset")
                 "SELECT * FROM Win32_Process" root_cimv2) = Returned r /\
      results_ r = map wrap two_objects /\
      List.length (results_ r) = List.length two_objects /\
      status_ r = Status1 0) /\
  (outcome (WmiRequest_ctor (E := com_up two_objects) 4 (Status2 1 "unset")
              "SELECT * FROM Win32_Process" root_cimv2)
   = Returned sample_request ->
   status_ sample_request = Status1 0).
Proof.
  assert (Hconn : connected (E := com_up two_objects)
                    "SELECT * FROM Win32_Process" root_cimv2
                    (enum_of two_objects)).
  { exists (locator_of S_OK S_OK two_objects), (services_of S_OK two_objects).
    repeat split. }
  split; [exact Hconn |].
  destruct (WmiRequest_ctor_drains (E := com_up two_objects) (Status2 1 "unset")
              "SELECT * FROM Win32_Process" root_cimv2
              (enum_of two_objects) Hconn) as [Hpulled Hend].
  split.
  - apply (Hpulled 4%nat two_objects E_FAIL None 0).
    + intros i o Hi. exists 1. split; [| lia].
      cbn [enum_of Next]. now rewrite Hi.
    + reflexivity.
    + reflexivity.
    + cbn. lia.
  - exact (Hend 4%nat sample_request).
Defined.

(** C7 fails as stated: on an array with bound pair (0,0) and an empty
    output vector, GetVectorOfStrings returns success and the output holds
    one element. *)
Lemma GetVectorOfStrings_bounds_0_0_not_empty :
  SafeArrayGetLBound (parray (array_variant 0 0)) = 0 /\
  SafeArrayGetUBound (parray (array_variant 0 0)) = 0 /\
  outcome (GetVectorOfStrings (E := com_down)
             (item_with S_OK (array_variant 0 0)) "Name" [])
  = Returned (Status1 0, ["a"]) /\
  ["a"] <> @nil string.
Proof. repeat split. discriminate. Qed.

Lemma GetVectorOfStrings_bounds_0_0_witness :
  outcome (GetVectorOfStrings (E := com_down)
             (item_with S_OK (array_variant 0 0)) "Name" ["x"])
  = Returned (Status1 0, ["x"; "a"]).
Proof.
  apply (proj1 (GetVectorOfStrings_bounds_0_0 (E := com_down)
                  (item_with S_OK (array_variant 0 0)) "Name" ["x"]
                  (object_with S_OK (array_variant 0 0)) (array_variant 0 0)
                  eq_refl eq_refl eq_refl eq_refl)).
  reflexivity.
Defined.

Lemma GetVectorOfStrings_copies_array_witness :
  exists copied,
    outcome (GetVectorOfStrings (E := com_down)
               (item_with S_OK (array_variant 0 2)) "Name" [])
      = Returned (Status1 0, [] ++ copied) /\
    Z.of_nat (List.length copied) = 2 - 0 + 1 /\
    (forall i, 0 <= i < 2 - 0 + 1 ->
       nth_error copied (Z.to_nat i)
       = Some (wide_to_ascii (SafeArrayAccessData (parray (array_variant 0 2)) i))) /\
    (forall N, 0 = 0 -> 2 = N - 1 -> List.length copied = Z.to_nat N).
Proof.
  apply (GetVectorOfStrings_copies_array (E := com_down)
           (item_with S_OK (array_variant 0 2)) "Name" []
           (object_with S_OK (array_variant 0 2)) (array_variant 0 2) 0 2).
  - reflexivity.
  - reflexivity.
  - reflexivity.
  - reflexivity.
  - reflexivity.
  - vm_compute. split; discriminate.
Defined.

Lemma GetVectorOfStrings_appends_witness :
  exists out',
    outcome (GetVectorOfStrings (E := com_down)
               (item_with S_OK (array_variant 0 1)) "Name" ["x"; "y"])
      = Returned (Status1 0, out') /\
    out' = ["x"; "y"] ++ map wide_to_ascii (elements (parray (array_variant 0 1))) /\
    firstn (List.length ["x"; "y"]) out' = ["x"; "y"] /\
    (forall i x, nth_error ["x"; "y"] i = Some x -> nth_error out' i = Some x).
Proof.
  apply (GetVectorOfStrings_appends (E := com_down)
           (item_with S_OK (array_variant 0 1)) "Name" ["x"; "y"]
           (object_with S_OK (array_variant 0 1)) (array_variant 0 1)).
  - reflexivity.
  - reflexivity.
  - reflexivity.
  - vm_compute. split; discriminate.
Defined.

(** C9 fails as stated: when the lookup fails, GetBool returns without
    releasing a payload. *)
Lemma GetBool_lookup_failure_no_release :
  exists st out',
    outcome (GetBool (E := com_down)
               (item_with E_FAIL (sample_variant VT_BOOL 0)) "Name" false)
      = Returned (st, out') /\
    error_kind st = Some RetrievalError /\
    count is_VariantClear
          (trace (GetBool (E := com_down)
                    (item_with E_FAIL (sample_variant VT_BOOL 0)) "Name" false))
      = 0%nat.
Proof. eexists; eexists. repeat split. Qed.

Lemma getter_releases_witness :
  let t := [Ev_Get S_OK; Ev_CoCreateInstance CLSID_SWbemDateTime S_OK;
            Ev_put_Value S_OK; Ev_VariantClear; Ev_GetFileTime S_OK;
            Ev_SysFreeString; Ev_Release I_SWbemDateTime] in
  let st := Status1 0 in
  run (call (E := com_down) (gDateTime true)
         (item_with S_OK (sample_variant VT_BSTR 0)) "InstallDate"
         {| dwLowDateTime := 0; dwHighDateTime := 0 |})
  = (t, Returned (st, {| dwLowDateTime := 20190101; dwHighDateTime := 0 |})) /\
  count is_Get t = 1%nat /\
  count is_VariantClear t = count payload_created t /\
  count is_VariantClear t
    = match error_kind st with Some RetrievalError => 0%nat | _ => 1%nat end /\
  count is_helper_release t = count helper_created t /\
  count is_SysFreeString t = count buffer_created t /\
  (count helper_created t <= 1)%nat /\
  (count buffer_created t <= 1)%nat.
Proof.
  cbv zeta.
  assert (H : run (call (E := com_down) (gDateTime true)
                     (item_with S_OK (sample_variant VT_BSTR 0)) "InstallDate"
                     {| dwLowDateTime := 0; dwHighDateTime := 0 |})
              = ([Ev_Get S_OK; Ev_CoCreateInstance CLSID_SWbemDateTime S_OK;
                  Ev_put_Value S_OK; Ev_VariantClear; Ev_GetFileTime S_OK;
                  Ev_SysFreeString; Ev_Release I_SWbemDateTime],
                 Returned (Status1 0,
                           {| dwLowDateTime := 20190101; dwHighDateTime := 0 |})))
    by (vm_compute; reflexivity).
  split; [exact H |].
  exact (getter_releases (E := com_down) (gDateTime true) _ _ _ _ _ _ H).
Defined.

(** * Further properties of the getters *)

(** ** The scalar members *)

Lemma signed_16_is_minus_one (x : Z) :
  (Int.signed 16 x =? VARIANT_TRUE) = (x mod 65536 =? 65535).
Proof.
  unfold Int.signed, VARIANT_TRUE.
  change (2 ^ 16) with 65536. change (2 ^ (16 - 1)) with 32768.
  pose proof (Z.mod_pos_bound x 65536 ltac:(lia)) as Hu.
  destruct (Z.ltb_spec (x mod 65536) 32768);
    destruct (Z.eqb_spec (x mod 65536) 65535);
    try (apply Z.eqb_neq; lia); try (apply Z.eqb_eq; lia).
Qed.

Lemma unsigned_32_of_signed_32 (x : Z) :
  Int.unsigned 32 (Int.signed 32 x) = x mod 4294967296.
Proof.
  unfold Int.unsigned, Int.signed.
  change (2 ^ 32) with 4294967296. change (2 ^ (32 - 1)) with 2147483648.
  pose proof (Z.mod_pos_bound x 4294967296 ltac:(lia)) as Hu.
  destruct (Z.ltb_spec (x mod 4294967296) 2147483648).
  - apply Z.mod_small. lia.
  - replace (x mod 4294967296 - 4294967296)
      with (x mod 4294967296 + (-1) * 4294967296) by lia.
    rewrite Z.mod_add by lia. apply Z.mod_small. lia.
Qed.

Lemma signed_32_of_signed_64 (x : Z) :
  -2147483648 <= Int.signed 64 x < 2147483648 ->
  Int.signed 32 x = Int.signed 64 x.
Proof.
  unfold Int.signed.
  change (2 ^ 64) with 18446744073709551616.
  change (2 ^ (64 - 1)) with 9223372036854775808.
  change (2 ^ 32) with 4294967296. change (2 ^ (32 - 1)) with 2147483648.
  intro H.
  destruct (Z.ltb_spec (x mod 18446744073709551616) 9223372036854775808);
    destruct (Z.ltb_spec (x mod 4294967296) 2147483648);
    Z.to_euclidean_division_equations; lia.
Qed.

Lemma signed_32_negative (x : Z) :
  -2147483648 <= x < 0 -> Int.signed 32 x = x.
Proof.
  unfold Int.signed.
  change (2 ^ 32) with 4294967296. change (2 ^ (32 - 1)) with 2147483648.
  intro H.
  destruct (Z.ltb_spec (x mod 4294967296) 2147483648);
    Z.to_euclidean_division_equations; lia.
Qed.

Lemma signed_64_of_long (x : Z) :
  -2147483648 <= x < 2147483648 -> Int.signed 64 x = x.
Proof.
  unfold Int.signed.
  change (2 ^ 64) with 18446744073709551616.
  change (2 ^ (64 - 1)) with 9223372036854775808.
  intro H.
  destruct (Z.ltb_spec (x mod 18446744073709551616) 9223372036854775808);
    Z.to_euclidean_division_equations; lia.
Qed.

Lemma signed_32_of_unsigned_64 (x : Z) :
  Int.unsigned 64 x < 2147483648 ->
  Int.signed 32 x = Int.unsigned 64 x.
Proof.
  unfold Int.signed, Int.unsigned.
  change (2 ^ 64) with 18446744073709551616.
  change (2 ^ 32) with 4294967296. change (2 ^ (32 - 1)) with 2147483648.
  intro H.
  destruct (Z.ltb_spec (x mod 4294967296) 2147483648);
    Z.to_euclidean_division_equations; lia.
Qed.

(** Turn the tests met on a path into equations. *)
Ltac tests_to_eqs :=
  repeat match goal with
    | H : (_ =? _) = true |- _ => apply Z.eqb_eq in H
    | H : (_ =? _) = false |- _ => apply Z.eqb_neq in H
    end.

Section ScalarGetters.
Context {E : Externals}.

(** GetBool gives [true] exactly when the sixteen bits of the boolean
    member are all set (VARIANT_TRUE); every other payload, 1 included,
    gives [false]. *)
Theorem GetBool_value (this : WmiResultItem) (name : string) (out : bool)
        (obj : IWbemClassObject) (v : VARIANT) :
  result_ this = Some obj ->
  Get obj (stringToWstring name) = (S_OK, v) ->
  vt v = VT_BOOL ->
  outcome (GetBool this name out)
  = Returned (Status1 0, raw v mod 65536 =? 65535).
Proof.
  intros Hobj Hget Htag. enter_getter Hobj. rewrite Hget. cbn [fst snd].
  rewrite Htag. cbn [Z.eqb VT_BOOL Pos.eqb negb app].
  unfold boolVal. now rewrite signed_16_is_minus_one.
Qed.

(** GetUnsignedLong reads the signed member [lVal] and converts it to
    [unsigned long]; what comes out is the unsigned 32-bit payload. *)
Theorem GetUnsignedLong_value (this : WmiResultItem) (name : string) (out : Z)
        (obj : IWbemClassObject) (v : VARIANT) :
  result_ this = Some obj ->
  Get obj (stringToWstring name) = (S_OK, v) ->
  vt v = VT_UI4 ->
  outcome (GetUnsignedLong this name out)
  = Returned (Status1 0, raw v mod 4294967296).
Proof.
  intros Hobj Hget Htag. enter_getter Hobj. rewrite Hget. cbn [fst snd].
  rewrite Htag. cbn [Z.eqb VT_UI4 Pos.eqb negb app].
  unfold lVal. now rewrite unsigned_32_of_signed_32.
Qed.

(** GetUnsignedInt32 reads the 16-bit member [uiVal]: what comes out is
    the low sixteen bits of the payload, always below 65536. *)
Theorem GetUnsignedInt32_value (this : WmiResultItem) (name : string) (out : Z)
        (obj : IWbemClassObject) (v : VARIANT) :
  result_ this = Some obj ->
  Get obj (stringToWstring name) = (S_OK, v) ->
  vt v = VT_UINT ->
  exists out',
    outcome (GetUnsignedInt32 this name out) = Returned (Status1 0, out') /\
    out' = raw v mod 65536 /\
    0 <= out' < 65536.
Proof.
  intros Hobj Hget Htag.
  pose proof (Z.mod_pos_bound (raw v) 65536 ltac:(lia)) as Hu.
  exists (raw v mod 65536). split; [| split; [reflexivity | exact Hu]].
  enter_getter Hobj. rewrite Hget. cbn [fst snd].
  rewrite Htag. cbn [Z.eqb VT_UINT Pos.eqb negb app].
  unfold uiVal, Int.unsigned. change (2 ^ 16) with 65536.
  change (2 ^ 32) with 4294967296.
  rewrite (Z.mod_small (raw v mod 65536)) by lia. reflexivity.
Qed.

(** A 64-bit payload that a [long] can hold comes out of GetLongLong and
    GetUnsignedLongLong unchanged. *)
Theorem wide_getters_exact_on_long (this : WmiResultItem) (name : string)
        (out : Z) (obj : IWbemClassObject) (v : VARIANT) :
  result_ this = Some obj ->
  Get obj (stringToWstring name) = (S_OK, v) ->
  (vt v = VT_I8 ->
   -2147483648 <= llVal v < 2147483648 ->
   outcome (GetLongLong this name out) = Returned (Status1 0, llVal v)) /\
  (vt v = VT_UI8 ->
   ullVal v < 2147483648 ->
   outcome (GetUnsignedLongLong this name out) = Returned (Status1 0, ullVal v)).
Proof.
  intros Hobj Hget. split; intros Htag Hfit; unfold outcome.
  - rewrite (GetLongLong_success this name out obj v Hobj Hget Htag). cbn [snd].
    unfold lVal, llVal in *. rewrite (signed_32_of_signed_64 _ Hfit).
    now rewrite signed_64_of_long.
  - rewrite (GetUnsignedLongLong_success this name out obj v Hobj Hget Htag).
    cbn [snd]. unfold lVal, ullVal in *.
    rewrite (signed_32_of_unsigned_64 _ Hfit).
    unfold Int.unsigned. now rewrite Z.mod_mod by (change (2 ^ 64) with 18446744073709551616; lia).
Qed.

(** GetString never leaves an old value behind: whenever it returns a
    failure the output is the empty string, and when it returns success
    the output is the converted string payload. *)
Theorem GetString_output (this : WmiResultItem) (name : string) (out : string)
        (t : list Event) (st : Status) (out' : string) :
  run (GetString this name out) = (t, Returned (st, out')) ->
  (getCode st <> 0 -> out' = "") /\
  (getCode st = 0 ->
   exists obj v,
     result_ this = Some obj /\
     Get obj (stringToWstring name) = (S_OK, v) /\
     vt v = VT_BSTR /\
     out' = bstrToString (bstrVal v)).
Proof.
  destruct (result_ this) as [obj |] eqn:Hobj.
  2:{ unfold_getters; unfold_monad; rewrite Hobj; discriminate. }
  enter_getter Hobj. split_paths; cbn [app]; intro H; inversion H; subst; clear H;
    cbn [getCode]; (split; [intro Hc | intro Hc]);
    try reflexivity; try discriminate; try (exfalso; apply Hc; reflexivity).
  tests_to_eqs. subst. exists obj, v. repeat split; assumption.
Qed.

(** Every status a getter returns is the success status or has code -1
    and one of the three error kinds; and a getter returns success only
    after a lookup that answered S_OK with the tag the getter asks for. *)
Theorem getter_success_needs_tag (g : Getter) (this : WmiResultItem)
        (name : string) (out : out_type g)
        (t : list Event) (st : Status) (out' : out_type g) :
  run (call g this name out) = (t, Returned (st, out')) ->
  (st = Status1 0 \/ (getCode st = -1 /\ error_kind st <> None)) /\
  (getCode st = 0 ->
   exists obj v,
     result_ this = Some obj /\
     Get obj (stringToWstring name) = (S_OK, v) /\
     vt v = expected_vt g).
Proof.
  destruct (result_ this) as [obj |] eqn:Hobj.
  2:{ rewrite (call_on_null g this name out Hobj). discriminate. }
  destruct g; enter_getter Hobj; split_paths; cbn [app];
    intro H; inversion H; subst; clear H;
    (split;
     [ first [ left; reflexivity | right; split; [reflexivity | discriminate] ]
     | cbn [getCode]; intro Hc; try discriminate;
       tests_to_eqs; subst;
       eexists; eexists; repeat split; eassumption ]).
Qed.

(** When the lookup fails, a getter leaves its output parameter as it
    was, except GetString, which assigns it the empty string. *)
Theorem getter_lookup_failure_output (g : Getter) (this : WmiResultItem)
        (name : string) (out : out_type g) (obj : IWbemClassObject) :
  result_ this = Some obj ->
  fst (Get obj (stringToWstring name)) <> S_OK ->
  exists st,
    outcome (call g this name out) = Returned (st, after_mismatch g out) /\
    getCode st = -1.
Proof.
  intros Hobj Hhr.
  destruct g; enter_getter Hobj;
    destruct (Get obj (stringToWstring name)) as [hr v]; cbn [fst snd] in *;
    rewrite (eqb_S_OK_false _ Hhr); cbn [negb app];
    eexists; (split; [reflexivity | reflexivity]).
Qed.

End ScalarGetters.

(** ** GetDateTime *)

Section DateTimeProperties.
Context {E : Externals}.

(** When every step succeeds, the two halves GetDateTime stores are 32-bit
    values that put together give the parsed file time as an unsigned
    64-bit number. *)
Theorem GetDateTime_halves (this : WmiResultItem) (name : string)
        (is_local : bool) (ft : FILETIME)
        (obj : IWbemClassObject) (v : VARIANT)
        (hr1 hr3 : HRESULT) (dt : ISWbemDateTime) (s : BSTR) :
  result_ this = Some obj ->
  Get obj (stringToWstring name) = (S_OK, v) ->
  vt v = VT_BSTR ->
  CoCreateInstance_SWbemDateTime = (hr1, dt) ->
  0 <= hr1 ->
  0 <= put_Value dt (bstrVal v) ->
  GetFileTime dt (bstrVal v) (if is_local then VARIANT_TRUE else VARIANT_FALSE)
  = (hr3, s) ->
  0 <= hr3 ->
  exists ft',
    outcome (GetDateTime this name is_local ft) = Returned (Status1 0, ft') /\
    0 <= dwLowDateTime ft' < 4294967296 /\
    0 <= dwHighDateTime ft' < 4294967296 /\
    dwLowDateTime ft' + 4294967296 * dwHighDateTime ft'
    = wtoi64 s mod 18446744073709551616.
Proof.
  intros Hobj Hget Htag Hdt Hhr1 Hhr2 Hft Hhr3.
  eexists. split.
  - enter_getter Hobj. rewrite Hget. cbn [fst snd]. rewrite Htag, Hdt.
    cbn [Z.eqb VT_BSTR Pos.eqb negb app].
    unfold SUCCEEDED.
    rewrite (proj2 (Z.leb_le 0 hr1) Hhr1). cbn [negb].
    rewrite (proj2 (Z.leb_le 0 _) Hhr2). cbn [negb].
    rewrite Hft. rewrite (proj2 (Z.leb_le 0 hr3) Hhr3). cbn [negb app].
    reflexivity.
  - cbn [dwLowDateTime dwHighDateTime]. unfold Int.unsigned.
    change (2 ^ 64) with 18446744073709551616.
    change (2 ^ 32) with 4294967296.
    Z.to_euclidean_division_equations. lia.
Qed.

(** Whenever GetDateTime returns a failure, the caller's FILETIME is as it
    was before the call. *)
Theorem GetDateTime_failure_keeps_filetime (this : WmiResultItem)
        (name : string) (is_local : bool) (ft : FILETIME)
        (t : list Event) (st : Status) (ft' : FILETIME) :
  run (GetDateTime this name is_local ft) = (t, Returned (st, ft')) ->
  getCode st <> 0 ->
  ft' = ft.
Proof.
  destruct (result_ this) as [obj |] eqn:Hobj.
  2:{ unfold_getters; unfold_monad; rewrite Hobj; discriminate. }
  enter_getter Hobj. split_paths; cbn [app]; intro H; inversion H; subst; clear H;
    cbn [getCode]; intro Hc; try reflexivity.
  exfalso. apply Hc. reflexivity.
Qed.

End DateTimeProperties.

(** ** GetVectorOfStrings, the array lock *)

Section ArrayLock.
Context {E : Externals}.

(** On every path on which GetVectorOfStrings returns, the array is
    unlocked as often as it was locked. *)
Theorem GetVectorOfStrings_lock_balanced (this : WmiResultItem) (name : string)
        (out : list string)
        (t : list Event) (st : Status) (out' : list string) :
  run (GetVectorOfStrings this name out) = (t, Returned (st, out')) ->
  count is_SafeArrayUnaccessData t = count is_SafeArrayAccessData t /\
  count is_SafeArrayAccessData t
  = (if getCode st =? 0 then 1%nat else 0%nat).
Proof.
  destruct (result_ this) as [obj |] eqn:Hobj.
  2:{ unfold_getters; unfold_monad; rewrite Hobj; discriminate. }
  enter_getter Hobj. split_paths; cbn [app]; intro H; inversion H; subst; clear H;
    split; reflexivity.
Qed.

(** An upper bound more than one below the lower bound gives a negative
    count: [reserve] throws, the call does not return, and neither the
    unlock nor the release of the payload is reached. *)
Theorem GetVectorOfStrings_negative_count (this : WmiResultItem) (name : string)
        (out : list string) (obj : IWbemClassObject) (v : VARIANT) :
  result_ this = Some obj ->
  Get obj (stringToWstring name) = (S_OK, v) ->
  vt v = Z.lor VT_BSTR VT_ARRAY ->
  -2147483648
    <= SafeArrayGetUBound (parray v) - SafeArrayGetLBound (parray v) + 1 < 0 ->
  run (GetVectorOfStrings this name out)
  = ([Ev_Get S_OK; Ev_SafeArrayAccessData], LengthError).
Proof.
  intros Hobj Hget Htag Hneg.
  enter_getter Hobj. rewrite Hget. cbn [fst snd].
  rewrite Htag, !Z.eqb_refl. cbn [negb].
  rewrite (signed_32_negative _ Hneg).
  destruct (Z.ltb_spec
              (SafeArrayGetUBound (parray v) - SafeArrayGetLBound (parray v) + 1) 0)
    as [_ | Hge]; [reflexivity | lia].
Qed.

End ArrayLock.

(** ** PrintType *)

Section Printing.
Context {E : Externals}.

(** PrintType makes one lookup and one call of [VariantClear] whatever the
    lookup answers.  After a failed lookup it writes the failure line to
    the error stream and nothing else; after a successful one it writes
    nothing to the error stream. *)
Theorem PrintType_paths (this : WmiResultItem) (name : string) (con : Console)
        (obj : IWbemClassObject) :
  result_ this = Some obj ->
  let hr := fst (Get obj (stringToWstring name)) in
  exists con',
    run (PrintType this name con)
    = ([Ev_Get hr; Ev_VariantClear], Returned con') /\
    (hr <> S_OK ->
     con' = to_cerr [P_str "Failed: "; P_str name; P_str nl] con) /\
    (hr = S_OK -> cerr con' = cerr con).
Proof.
  intros Hobj. cbv zeta.
  unfold PrintType, call_Get, VariantClear. unfold_monad. rewrite Hobj.
  cbv beta iota zeta.
  destruct (Get obj (stringToWstring name)) as [hr v]. cbn [fst snd app].
  eexists. split; [reflexivity |]. split; intro Hhr.
  - now rewrite (eqb_S_OK_false _ Hhr).
  - rewrite Hhr. cbn [Z.eqb S_OK negb].
    destruct (vt v =? VT_I4); [reflexivity |].
    destruct (vt v =? VT_BSTR); reflexivity.
Qed.

(** PrintType tests its handle no more than the getters do. *)
Lemma PrintType_on_null (this : WmiResultItem) (name : string) (con : Console) :
  result_ this = None ->
  run (PrintType this name con) = ([], NullDereference).
Proof.
  intro Hnull. unfold PrintType, call_Get. unfold_monad. now rewrite Hnull.
Qed.

End Printing.

(** ** Ownership of the wrapped object *)

(** Moving an item hands the one reference over: destroying the new item
    makes the release call that destroying the source would have made,
    destroying the moved-from source makes none, and an item that has been
    destroyed can be destroyed again without a release. *)
Theorem WmiResultItem_move_transfers (src : WmiResultItem) :
  let dst := fst (WmiResultItem_move src) in
  let src' := snd (WmiResultItem_move src) in
  trace (WmiResultItem_dtor dst) = trace (WmiResultItem_dtor src) /\
  trace (WmiResultItem_dtor src') = [] /\
  (forall t this', run (WmiResultItem_dtor src) = (t, Returned this') ->
                   trace (WmiResultItem_dtor this') = []).
Proof.
  cbv zeta. destruct src as [[obj |]]; repeat split;
    intros t this' H; inversion H; reflexivity.
Qed.

(** * Further properties of WmiRequest *)

(** ** The drain loop in general *)

Lemma count_app (p : Event -> bool) (t1 t2 : list Event) :
  count p (t1 ++ t2) = (count p t1 + count p t2)%nat.
Proof. unfold count. now rewrite filter_app, length_app. Qed.

Lemma count_pulls (p : Event -> bool) (pulls : list Event) :
  forallb is_Next pulls = true ->
  (forall hr, p (Ev_Next hr) = false) ->
  count p pulls = 0%nat.
Proof.
  intros Hpulls Hp. induction pulls as [| e pulls IH]; [reflexivity |].
  cbn [forallb] in Hpulls. apply andb_prop in Hpulls as [He Hrest].
  destruct e; try discriminate He.
  unfold count in *. cbn [filter]. rewrite Hp. now apply IH.
Qed.

(** Whatever the enumerator answers, a drain loop that ends has only
    pulled: it leaves the status and the three handles alone, keeps the
    results it started with and adds at most one result per pull; and it
    pulls only through a non-null enumerator. *)
Lemma drain_frame :
  forall (fuel : nat) (hr : HRESULT) (n : nat) (this : WmiRequest)
         (t t' : list Event) (r : WmiRequest),
    drain fuel hr n this t = (t', Returned r) ->
    status_ r = status_ this /\ enum_ r = enum_ this /\
    locator_ r = locator_ this /\ services_ r = services_ this /\
    exists l pulls,
      results_ r = results_ this ++ l /\
      t' = t ++ pulls /\
      forallb is_Next pulls = true /\
      (List.length l <= List.length pulls)%nat /\
      (pulls <> [] -> enum_ this <> None).
Proof.
  induction fuel as [| fuel IH]; intros hr n this t t' r Hrun.
  - discriminate Hrun.
  - cbn [drain] in Hrun.
    destruct (hr =? WBEM_S_NO_ERROR).
    + unfold bind at 1 in Hrun. unfold deref in Hrun.
      destruct (enum_ this) as [e |] eqn:Hen; [| discriminate Hrun].
      unfold ret at 1 in Hrun. cbv beta iota zeta in Hrun.
      destruct (Next e n) as [[hr' result] result_count].
      unfold bind at 1 in Hrun. unfold emit at 1 in Hrun.
      cbv beta iota zeta in Hrun.
      apply IH in Hrun.
      destruct Hrun as (Hst & He & Hl & Hs & l & pulls & Hres & Ht & Hp & Hlen & _).
      destruct (SUCCEEDED hr' && (0 <? result_count));
        cbn [set_results_ status_ enum_ locator_ services_ results_] in *.
      * split; [congruence |]. split; [congruence |].
        split; [congruence |]. split; [congruence |].
        exists ({| result_ := result |} :: l), (Ev_Next hr' :: pulls).
        rewrite Hres, Ht, <- !app_assoc. cbn [app forallb is_Next List.length].
        split; [reflexivity |]. split; [reflexivity |]. split; [exact Hp |].
        split; [lia | intros _; congruence].
      * split; [congruence |]. split; [congruence |].
        split; [congruence |]. split; [congruence |].
        exists l, (Ev_Next hr' :: pulls).
        rewrite Hres, Ht, <- !app_assoc. cbn [app forallb is_Next List.length].
        split; [reflexivity |]. split; [reflexivity |]. split; [exact Hp |].
        split; [lia | intros _; congruence].
    + inversion Hrun; subst.
      split; [reflexivity |]. split; [reflexivity |].
      split; [reflexivity |]. split; [reflexivity |].
      exists [], []. rewrite !app_nil_r.
      split; [reflexivity |]. split; [reflexivity |]. split; [reflexivity |].
      split; [cbn; lia | intro H; now contradiction H].
Qed.

(** The loop run to the first answer other than WBEM_S_NO_ERROR. *)
Lemma drain_until (en : IEnumWbemClassObject) :
  forall (objs : list IWbemClassObject) (fuel n : nat) (this : WmiRequest)
         (t : list Event),
    enum_ this = Some en ->
    (forall i o, nth_error objs i = Some o ->
       exists k, Next en (n + i) = (WBEM_S_NO_ERROR, Some o, k) /\ 0 < k) ->
    fst (fst (Next en (n + List.length objs))) <> WBEM_S_NO_ERROR ->
    (List.length objs + 2 <= fuel)%nat ->
    exists t' r,
      drain fuel WBEM_S_NO_ERROR n this t = (t', Returned r) /\
      results_ r
      = results_ this ++ map wrap objs ++ kept (Next en (n + List.length objs)).
Proof.
  induction objs as [| o objs IH]; intros fuel n this t Hen Hpull Hlast Hfuel.
  - destruct fuel as [| [| fuel]]; cbn [List.length] in *; try lia.
    rewrite Nat.add_0_r in *.
    cbn [drain]. unfold_monad. rewrite Hen. cbv beta iota zeta.
    rewrite Z.eqb_refl.
    destruct (Next en n) as [[hr p] c]. cbn [fst] in Hlast.
    rewrite (proj2 (Z.eqb_neq hr WBEM_S_NO_ERROR) Hlast).
    eexists; eexists. split; [reflexivity |].
    cbn [map app kept].
    destruct (SUCCEEDED hr && (0 <? c)); cbn [set_results_ results_];
      [reflexivity | now rewrite app_nil_r].
  - destruct fuel as [| fuel]; cbn [List.length] in *; try lia.
    destruct (Hpull 0%nat o eq_refl) as (k & Hnext & Hk).
    rewrite Nat.add_0_r in Hnext.
    cbn [drain]. rewrite Z.eqb_refl.
    unfold bind at 1. unfold deref. rewrite Hen. unfold ret at 1.
    cbv beta iota zeta. rewrite Hnext.
    unfold bind at 1. unfold emit at 1. cbv beta iota zeta.
    replace (SUCCEEDED WBEM_S_NO_ERROR && (0 <? k)) with true
      by (symmetry; apply andb_true_intro; split;
          [reflexivity | apply Z.ltb_lt; exact Hk]).
    destruct (IH fuel (S n)
                (set_results_ (results_ this ++ [ {| result_ := Some o |} ]) this)
                (t ++ [Ev_Next WBEM_S_NO_ERROR]))
      as (t' & r & Hrun & Hres).
    + exact Hen.
    + intros i o' Hi. destruct (Hpull (S i) o' Hi) as (k' & Hk' & Hpos).
      exists k'. split; [| exact Hpos].
      now replace (S n + i)%nat with (n + S i)%nat by lia.
    + now replace (S n + List.length objs)%nat
        with (n + S (List.length objs))%nat by lia.
    + lia.
    + exists t', r. split; [exact Hrun |].
      cbn [set_results_ results_] in Hres.
      rewrite Hres, <- app_assoc.
      now replace (S n + List.length objs)%nat
        with (n + S (List.length objs))%nat by lia.
Qed.

(** A loop whose enumerator always answers WBEM_S_NO_ERROR does not
    end. *)
Lemma drain_endless (en : IEnumWbemClassObject) :
  (forall n, fst (fst (Next en n)) = WBEM_S_NO_ERROR) ->
  forall (fuel n : nat) (this : WmiRequest) (t : list Event),
    enum_ this = Some en ->
    snd (drain fuel WBEM_S_NO_ERROR n this t) = OutOfFuel.
Proof.
  intros Hnext. induction fuel as [| fuel IH]; intros n this t Hen.
  - reflexivity.
  - cbn [drain]. rewrite Z.eqb_refl.
    unfold bind at 1. unfold deref. rewrite Hen. unfold ret at 1.
    cbv beta iota zeta.
    specialize (Hnext n).
    destruct (Next en n) as [[hr p] c]. cbn [fst] in Hnext. subst hr.
    unfold bind at 1. unfold emit at 1. cbv beta iota zeta.
    apply IH.
    destruct (SUCCEEDED WBEM_S_NO_ERROR && (0 <? c)); exact Hen.
Qed.

(** The log does not steer the loop. *)
Lemma drain_any_log :
  forall (fuel : nat) (hr : HRESULT) (n : nat) (this : WmiRequest)
         (t1 t2 : list Event),
    snd (drain fuel hr n this t1) = snd (drain fuel hr n this t2).
Proof.
  induction fuel as [| fuel IH]; intros hr n this t1 t2.
  - reflexivity.
  - cbn [drain]. destruct (hr =? WBEM_S_NO_ERROR); [| reflexivity].
    unfold bind at 1 3. unfold deref.
    destruct (enum_ this) as [e |]; [| reflexivity].
    unfold ret at 1 2. cbv beta iota zeta.
    destruct (Next e n) as [[hr' result] result_count].
    unfold bind at 1 2. unfold emit at 1 2. cbv beta iota zeta.
    apply IH.
Qed.

(** ** The constructor, path by path *)

Section ConstructorPaths.
Context {E : Externals}.

(** The four ways the constructor returns, each with its log. *)
Lemma WmiRequest_ctor_returned (fuel : nat) (status0 : Status)
      (query : string) (nspace : BSTR) (t : list Event) (r : WmiRequest) :
  run (WmiRequest_ctor fuel status0 query nspace) = (t, Returned r) ->
  (exists hr,
      hr <> S_OK /\
      t = [Ev_CoInitializeSecurity CoInitializeSecurity;
           Ev_CoCreateInstance CLSID_WbemLocator hr] /\
      r = members status0)
  \/
  (exists loc hr,
      hr <> S_OK /\
      t = [Ev_CoInitializeSecurity CoInitializeSecurity;
           Ev_CoCreateInstance CLSID_WbemLocator S_OK;
           Ev_ConnectServer hr] /\
      r = set_locator_ (Some loc) (members status0))
  \/
  (exists loc svc hr,
      hr <> S_OK /\
      t = [Ev_CoInitializeSecurity CoInitializeSecurity;
           Ev_CoCreateInstance CLSID_WbemLocator S_OK;
           Ev_ConnectServer S_OK; Ev_ExecQuery hr] /\
      r = set_services_ (Some svc) (set_locator_ (Some loc) (members status0)))
  \/
  (exists loc svc en r0,
      connected query nspace en /\
      drain fuel WBEM_S_NO_ERROR 0
            (set_enum_ (Some en)
               (set_services_ (Some svc)
                  (set_locator_ (Some loc) (members status0))))
            [Ev_CoInitializeSecurity CoInitializeSecurity;
             Ev_CoCreateInstance CLSID_WbemLocator S_OK;
             Ev_ConnectServer S_OK; Ev_ExecQuery S_OK]
      = (t, Returned r0) /\
      r = set_status_ (Status1 0) r0).
Proof.
  unfold WmiRequest_ctor, run, connected.
  destruct CoCreateInstance_WbemLocator as [hr1 p1] eqn:Hloc.
  cbv beta iota zeta.
  unfold bind at 1. unfold emit at 1. cbv beta iota zeta.
  unfold bind at 1. unfold emit at 1. cbv beta iota zeta.
  destruct (Z.eqb_spec hr1 S_OK) as [-> | Hhr1]; cbn [negb app].
  2:{ intro H. inversion H; subst. left. exists hr1. repeat split. exact Hhr1. }
  cbn [set_locator_ locator_ members].
  unfold bind at 1. unfold deref.
  destruct p1 as [loc |]; [| discriminate].
  unfold ret at 1. cbv beta iota zeta.
  destruct (ConnectServer loc nspace) as [hr2 p2] eqn:Hbind.
  unfold bind at 1. unfold emit at 1. cbv beta iota zeta.
  destruct (Z.eqb_spec hr2 S_OK) as [-> | Hhr2]; cbn [negb app].
  2:{ intro H. inversion H; subst. right; left. exists loc, hr2.
      repeat split. exact Hhr2. }
  cbn [set_services_ services_].
  unfold bind at 1.
  destruct p2 as [svc |]; [| discriminate].
  unfold ret at 1. cbv beta iota zeta.
  destruct (ExecQuery svc L_WQL (stringToWstring query)) as [hr3 p3] eqn:Hexec.
  unfold bind at 1. unfold emit at 1. cbv beta iota zeta.
  destruct (Z.eqb_spec hr3 S_OK) as [-> | Hhr3]; cbn [negb app].
  2:{ intro H. inversion H; subst. right; right; left. exists loc, svc, hr3.
      repeat split. exact Hhr3. }
  destruct p3 as [en |].
  2:{ destruct fuel as [| fuel]; cbn [drain]; unfold_monad; cbn [set_enum_ enum_];
      discriminate. }
  unfold bind at 1.
  match goal with
  | |- context [drain fuel ?h ?n ?this ?t0] =>
      destruct (drain fuel h n this t0) as [t' [r0 | | |]] eqn:Hdrain
  end; try discriminate.
  unfold ret. intro H. inversion H; subst.
  right; right; right.
  exists loc, svc, en, r0. split; [| split; [exact Hdrain | reflexivity]].
  exists loc, svc. repeat split; assumption.
Qed.

End ConstructorPaths.

Section ConstructorProperties.
Context {E : Externals}.

(** When the three stages succeed and the enumerator yields the objects of
    [objs] and then gives its first answer other than WBEM_S_NO_ERROR,
    the end of the enumeration (WBEM_S_FALSE) included, the constructor
    returns with these objects in order and the success status.  The
    object of that last answer is kept too when the answer is a success
    code with a positive count. *)
Theorem WmiRequest_ctor_until_stop (fuel : nat) (status0 : Status)
        (query : string) (nspace : BSTR) (en : IEnumWbemClassObject)
        (objs : list IWbemClassObject) :
  connected query nspace en ->
  (forall i o, nth_error objs i = Some o ->
     exists k, Next en i = (WBEM_S_NO_ERROR, Some o, k) /\ 0 < k) ->
  fst (fst (Next en (List.length objs))) <> WBEM_S_NO_ERROR ->
  (List.length objs + 2 <= fuel)%nat ->
  exists r,
    outcome (WmiRequest_ctor fuel status0 query nspace) = Returned r /\
    results_ r = map wrap objs ++ kept (Next en (List.length objs)) /\
    status_ r = Status1 0.
Proof.
  intros Hconn Hpull Hlast Hfuel.
  destruct (WmiRequest_ctor_connected fuel status0 query nspace en Hconn)
    as (t & this & Hen & Hres & Hrun).
  destruct (drain_until en objs fuel 0 this t Hen Hpull Hlast Hfuel)
    as (t' & r & Hdrain & Hr).
  exists (set_status_ (Status1 0) r).
  unfold outcome. rewrite Hrun. unfold bind. rewrite Hdrain.
  cbn [ret snd set_status_ results_ status_].
  rewrite Hr, Hres. repeat split.
Qed.

(** The drain loop has no bound: when the enumerator answers
    WBEM_S_NO_ERROR to every pull, the constructor does not return,
    however many steps it is given. *)
Theorem WmiRequest_ctor_never_returns (status0 : Status)
        (query : string) (nspace : BSTR) (en : IEnumWbemClassObject) :
  connected query nspace en ->
  (forall n, fst (fst (Next en n)) = WBEM_S_NO_ERROR) ->
  forall fuel,
    outcome (WmiRequest_ctor fuel status0 query nspace) = OutOfFuel.
Proof.
  intros Hconn Hnext fuel.
  destruct (WmiRequest_ctor_connected fuel status0 query nspace en Hconn)
    as (t & this & Hen & _ & Hrun).
  unfold outcome. rewrite Hrun. unfold bind.
  pose proof (drain_endless en Hnext fuel 0 this t Hen) as Hdrain.
  destruct (drain fuel WBEM_S_NO_ERROR 0 this t) as [t' o].
  cbn [snd] in Hdrain. now subst o.
Qed.

(** What holds of every request the constructor returns: a handle is held
    only when the handles acquired before it are; there are results only
    in a request that holds its enumerator and has the success status;
    there are no more results than pulls were made; and the status is
    the default-constructed one or the success status. *)
Theorem WmiRequest_ctor_invariant (fuel : nat) (status0 : Status)
        (query : string) (nspace : BSTR) (t : list Event) (r : WmiRequest) :
  run (WmiRequest_ctor fuel status0 query nspace) = (t, Returned r) ->
  (enum_ r <> None -> services_ r <> None) /\
  (services_ r <> None -> locator_ r <> None) /\
  (results_ r <> [] -> enum_ r <> None /\ status_ r = Status1 0) /\
  (List.length (results_ r) <= count is_Next t)%nat /\
  (status_ r = status0 \/ status_ r = Status1 0).
Proof.
  intro Hrun.
  destruct (WmiRequest_ctor_returned fuel status0 query nspace t r Hrun)
    as [(hr & _ & Ht & Hr)
       | [(loc & hr & _ & Ht & Hr)
         | [(loc & svc & hr & _ & Ht & Hr)
           | (loc & svc & en & r0 & _ & Hdrain & Hr)]]]; subst r.
  - cbn. repeat split; try congruence; try lia. now left.
  - cbn. repeat split; try congruence; try lia. now left.
  - cbn. repeat split; try congruence; try lia. now left.
  - apply drain_frame in Hdrain.
    destruct Hdrain as (_ & He & Hl & Hs & l & pulls & Hres & Ht & Hp & Hlen & _).
    cbn [set_status_ set_enum_ set_services_ set_locator_ members
         status_ results_ enum_ locator_ services_ app] in *.
    rewrite He, Hl, Hs, Hres.
    split; [intros _; discriminate |].
    split; [intros _; discriminate |].
    split; [intros _; split; [discriminate | reflexivity] |].
    split; [| now right].
    subst t. unfold count. cbn [filter is_Next].
    assert (Hall : filter is_Next pulls = pulls).
    { clear - Hp. induction pulls as [| e pulls IH]; [reflexivity |].
      cbn [forallb] in Hp. apply andb_prop in Hp as [He Hrest].
      cbn [filter]. rewrite He. f_equal. now apply IH. }
    rewrite Hall. lia.
Qed.

End ConstructorProperties.

(** The answer of [CoInitializeSecurity] is never looked at: two runtimes
    that differ in it alone construct the same request. *)
Theorem WmiRequest_ctor_ignores_security_init
        (s2w : string -> wstring) (b2s : BSTR -> string) (w64 : BSTR -> Z)
        (hr1 hr2 : HRESULT) (loc : HRESULT * option IWbemLocator)
        (dt : HRESULT * ISWbemDateTime)
        (fuel : nat) (status0 : Status) (query : string) (nspace : BSTR) :
  outcome (WmiRequest_ctor
             (E := Build_Externals s2w b2s w64 hr1 loc dt)
             fuel status0 query nspace)
  = outcome (WmiRequest_ctor
               (E := Build_Externals s2w b2s w64 hr2 loc dt)
               fuel status0 query nspace).
Proof.
  unfold outcome, run, WmiRequest_ctor.
  cbn [stringToWstring CoInitializeSecurity CoCreateInstance_WbemLocator].
  destruct loc as [h1 p1].
  unfold deref, crash, bind, emit, ret. cbv beta iota zeta.
  destruct (h1 =? S_OK); cbn [negb]; [| reflexivity].
  cbn [set_locator_ locator_ members].
  destruct p1 as [l |]; [| reflexivity].
  destruct (ConnectServer l nspace) as [h2 p2].
  destruct (h2 =? S_OK); cbn [negb]; [| reflexivity].
  cbn [set_services_ services_].
  destruct p2 as [svc |]; [| reflexivity].
  destruct (ExecQuery svc L_WQL (s2w query)) as [h3 p3].
  destruct (h3 =? S_OK); cbn [negb]; [| reflexivity].
  match goal with
  | |- context [drain ?f ?h ?n ?this ?ta] =>
      match goal with
      | |- context [drain f h n this ?tb] =>
          tryif constr_eq ta tb then fail else
            (pose proof (drain_any_log f h n this ta tb) as Hlog;
             destruct (drain f h n this ta) as [ta' oa];
             destruct (drain f h n this tb) as [tb' ob])
      end
  end.
  cbn [snd] in Hlog. subst ob. destruct oa; reflexivity.
Qed.

(** ** The destructor *)

Lemma clear_run (l : list WmiResultItem) :
  forall t, clear l t = (t ++ object_releases l, Returned []).
Proof.
  induction l as [| x l IH]; intro t.
  - cbn. now rewrite app_nil_r.
  - cbn [clear object_releases flat_map]. unfold bind at 1.
    unfold WmiResultItem_dtor.
    destruct (result_ x).
    + unfold bind, emit, ret. rewrite IH. now rewrite <- app_assoc.
    + unfold ret. rewrite IH. reflexivity.
Qed.

Lemma WmiRequest_dtor_run (this : WmiRequest) (t : list Event) :
  WmiRequest_dtor this t
  = (t ++ object_releases (results_ this) ++ handle_releases this,
     Returned (destroyed this)).
Proof.
  destruct this as [st res en loc svc].
  unfold WmiRequest_dtor, handle_releases, destroyed.
  unfold bind at 1. rewrite clear_run.
  cbn [results_ enum_ services_ locator_ status_ set_results_].
  destruct en, svc, loc; unfold_monad;
    cbn [results_ enum_ services_ locator_ status_
         set_results_ set_enum_ set_services_ set_locator_ app];
    rewrite <- ?app_assoc; cbn [app]; rewrite ?app_nil_r; reflexivity.
Qed.

Lemma count_object_releases (i : Interface) (l : list WmiResultItem) :
  i <> I_WbemClassObject ->
  count (is_release_of i) (object_releases l) = 0%nat.
Proof.
  intro Hi. induction l as [| x l IH]; [reflexivity |].
  cbn [object_releases flat_map]. rewrite count_app.
  fold (object_releases l). rewrite IH.
  destruct (result_ x); [| reflexivity].
  destruct i; try reflexivity. now contradiction Hi.
Qed.

(** The destructor makes one release call for every result that holds an
    object, then releases the enumerator, the services and the locator,
    in this order and each only if held; it returns a request that holds
    nothing. *)
Theorem WmiRequest_dtor_order (this : WmiRequest) :
  run (WmiRequest_dtor this)
  = (object_releases (results_ this)
       ++ (match enum_ this with
           | Some _ => [Ev_Release I_EnumWbemClassObject] | None => [] end)
       ++ (match services_ this with
           | Some _ => [Ev_Release I_WbemServices] | None => [] end)
       ++ (match locator_ this with
           | Some _ => [Ev_Release I_WbemLocator] | None => [] end),
     Returned {| status_ := status_ this; results_ := []; enum_ := None;
                 locator_ := None; services_ := None |}).
Proof. unfold run. now rewrite WmiRequest_dtor_run. Qed.

(** Destroying a request a second time makes no release call. *)
Theorem WmiRequest_dtor_twice (this : WmiRequest) (t : list Event)
        (r : WmiRequest) :
  run (WmiRequest_dtor this) = (t, Returned r) ->
  run (WmiRequest_dtor r) = ([], Returned r).
Proof.
  unfold run. rewrite WmiRequest_dtor_run. intro H. inversion H; subst.
  now rewrite WmiRequest_dtor_run.
Qed.

(** After a move, destroying the source and then the new request makes
    exactly the release calls, in the same order, that destroying the
    original would have made: the source releases the objects of the
    results, the new request the three handles. *)
Theorem WmiRequest_move_conserves_releases (status0 : Status) (src : WmiRequest) :
  let dst := fst (WmiRequest_move status0 src) in
  let src' := snd (WmiRequest_move status0 src) in
  trace (WmiRequest_dtor src') = object_releases (results_ src) /\
  trace (WmiRequest_dtor dst) = handle_releases src /\
  trace (WmiRequest_dtor src)
  = trace (WmiRequest_dtor src') ++ trace (WmiRequest_dtor dst).
Proof.
  cbv zeta. unfold trace, run. rewrite !WmiRequest_dtor_run.
  destruct src as [st res en loc svc].
  cbn [fst snd app WmiRequest_move set_locator_ set_services_ set_enum_ members
       results_ enum_ locator_ services_ object_releases flat_map].
  unfold handle_releases.
  cbn [enum_ locator_ services_ app]. rewrite !app_nil_r.
  repeat split.
Qed.

Section Lifecycle.
Context {E : Externals}.

(** Construction and destruction match: for each of the three connection
    handles, the destructor of a constructed request makes as many release
    calls as the constructor made calls that handed the handle out. *)
Theorem WmiRequest_lifecycle (fuel : nat) (status0 : Status)
        (query : string) (nspace : BSTR) (t : list Event) (r : WmiRequest)
        (i : Interface) :
  run (WmiRequest_ctor fuel status0 query nspace) = (t, Returned r) ->
  i = I_WbemLocator \/ i = I_WbemServices \/ i = I_EnumWbemClassObject ->
  count (is_release_of i) (trace (WmiRequest_dtor r)) = count (handed_out i) t.
Proof.
  intros Hrun Hi.
  assert (Hobj : i <> I_WbemClassObject)
    by (destruct Hi as [-> | [-> | ->]]; discriminate).
  unfold trace, run. rewrite WmiRequest_dtor_run. cbn [fst app].
  rewrite count_app, (count_object_releases i _ Hobj). cbn [Nat.add].
  destruct (WmiRequest_ctor_returned fuel status0 query nspace t r Hrun)
    as [(hr & Hhr & Ht & Hr)
       | [(loc & hr & Hhr & Ht & Hr)
         | [(loc & svc & hr & Hhr & Ht & Hr)
           | (loc & svc & en & r0 & _ & Hdrain & Hr)]]]; subst r.
  - subst t. unfold count.
    cbn [handle_releases members enum_ services_ locator_ app].
    destruct Hi as [-> | [-> | ->]]; cbn [filter is_release_of handed_out];
      rewrite ?(eqb_S_OK_false _ Hhr); reflexivity.
  - subst t. unfold count.
    cbn [handle_releases members set_locator_ enum_ services_ locator_ app
         filter handed_out].
    destruct Hi as [-> | [-> | ->]]; cbn [filter is_release_of handed_out];
      rewrite ?(eqb_S_OK_false _ Hhr); reflexivity.
  - subst t. unfold count.
    cbn [handle_releases members set_locator_ set_services_
         enum_ services_ locator_ app].
    destruct Hi as [-> | [-> | ->]]; cbn [filter is_release_of handed_out];
      rewrite ?(eqb_S_OK_false _ Hhr); reflexivity.
  - apply drain_frame in Hdrain.
    destruct Hdrain as (_ & He & Hl & Hs & l & pulls & _ & Ht & Hp & _ & _).
    unfold handle_releases.
    cbn [set_status_ set_enum_ set_services_ set_locator_ members
         status_ results_ enum_ locator_ services_] in *.
    rewrite He, Hl, Hs. subst t. rewrite (count_app (handed_out i)).
    rewrite (count_pulls (handed_out i) pulls Hp)
      by (intro hr; destruct i; reflexivity).
    destruct Hi as [-> | [-> | ->]]; reflexivity.
Qed.

End Lifecycle.

(** ** The further properties at sample inputs *)

Lemma GetBool_value_witness :
  outcome (GetBool (E := com_down)
             (item_with S_OK (sample_variant VT_BOOL 1)) "Enabled" true)
  = Returned (Status1 0, 1 mod 65536 =? 65535).
Proof.
  apply (GetBool_value (E := com_down)
           (item_with S_OK (sample_variant VT_BOOL 1)) "Enabled" true
           (object_with S_OK (sample_variant VT_BOOL 1))
           (sample_variant VT_BOOL 1)); reflexivity.
Defined.

Lemma GetUnsignedLong_value_witness :
  outcome (GetUnsignedLong (E := com_down)
             (item_with S_OK (sample_variant VT_UI4 4294967295)) "Size" 0)
  = Returned (Status1 0, 4294967295 mod 4294967296).
Proof.
  apply (GetUnsignedLong_value (E := com_down)
           (item_with S_OK (sample_variant VT_UI4 4294967295)) "Size" 0
           (object_with S_OK (sample_variant VT_UI4 4294967295))
           (sample_variant VT_UI4 4294967295)); reflexivity.
Defined.

Lemma GetUnsignedInt32_value_witness :
  exists out',
    outcome (GetUnsignedInt32 (E := com_down)
               (item_with S_OK (sample_variant VT_UINT 65537)) "Size" 0)
      = Returned (Status1 0, out') /\
    out' = 65537 mod 65536 /\
    0 <= out' < 65536.
Proof.
  apply (GetUnsignedInt32_value (E := com_down)
           (item_with S_OK (sample_variant VT_UINT 65537)) "Size" 0
           (object_with S_OK (sample_variant VT_UINT 65537))
           (sample_variant VT_UINT 65537)); reflexivity.
Defined.

Lemma wide_getters_exact_on_long_witness :
  outcome (GetLongLong (E := com_down)
             (item_with S_OK (sample_variant VT_I8 18446744073709551611))
             "Offset" 0)
  = Returned (Status1 0, llVal (sample_variant VT_I8 18446744073709551611)) /\
  outcome (GetUnsignedLongLong (E := com_down)
             (item_with S_OK (sample_variant VT_UI8 77)) "Size" 0)
  = Returned (Status1 0, ullVal (sample_variant VT_UI8 77)).
Proof.
  split.
  - apply (proj1 (wide_getters_exact_on_long (E := com_down)
                    (item_with S_OK (sample_variant VT_I8 18446744073709551611))
                    "Offset" 0
                    (object_with S_OK (sample_variant VT_I8 18446744073709551611))
                    (sample_variant VT_I8 18446744073709551611)
                    eq_refl eq_refl)).
    + reflexivity.
    + vm_compute. split; [discriminate | reflexivity].
  - apply (proj2 (wide_getters_exact_on_long (E := com_down)
                    (item_with S_OK (sample_variant VT_UI8 77)) "Size" 0
                    (object_with S_OK (sample_variant VT_UI8 77))
                    (sample_variant VT_UI8 77)
                    eq_refl eq_refl)).
    + reflexivity.
    + vm_compute. reflexivity.
Defined.

Lemma GetString_output_witness :
  run (GetString (E := com_down)
         (item_with S_OK (sample_variant VT_I4 7)) "Name" "old")
  = ([Ev_Get S_OK; Ev_VariantClear],
     Returned (Status2 (-1) "Invalid data type returned.", "")) /\
  (getCode (Status2 (-1) "Invalid data type returned.") <> 0 -> "" = "").
Proof.
  assert (H : run (GetString (E := com_down)
                     (item_with S_OK (sample_variant VT_I4 7)) "Name" "old")
              = ([Ev_Get S_OK; Ev_VariantClear],
                 Returned (Status2 (-1) "Invalid data type returned.", "")))
    by (vm_compute; reflexivity).
  split; [exact H |].
  exact (proj1 (GetString_output (E := com_down) _ _ _ _ _ _ H)).
Defined.

Lemma getter_success_needs_tag_witness :
  run (call (E := com_down) gUnsignedShort
         (item_with S_OK (sample_variant VT_UI2 9)) "Port" 0)
  = ([Ev_Get S_OK; Ev_VariantClear], Returned (Status1 0, 9)) /\
  (getCode (Status1 0) = 0 ->
   exists obj v,
     result_ (item_with S_OK (sample_variant VT_UI2 9)) = Some obj /\
     Get obj (ascii_to_wide "Port") = (S_OK, v) /\
     vt v = expected_vt gUnsignedShort).
Proof.
  assert (H : run (call (E := com_down) gUnsignedShort
                     (item_with S_OK (sample_variant VT_UI2 9)) "Port" 0)
              = ([Ev_Get S_OK; Ev_VariantClear], Returned (Status1 0, 9)))
    by (vm_compute; reflexivity).
  split; [exact H |].
  exact (proj2 (getter_success_needs_tag (E := com_down) gUnsignedShort
                  _ _ _ _ _ _ H)).
Defined.

Lemma getter_lookup_failure_output_witness :
  exists st,
    outcome (call (E := com_down) gVectorOfStrings
               (item_with E_FAIL (array_variant 0 2)) "Names" ["x"])
      = Returned (st, ["x"]) /\
    getCode st = -1.
Proof.
  apply (getter_lookup_failure_output (E := com_down) gVectorOfStrings
           (item_with E_FAIL (array_variant 0 2)) "Names" ["x"]
           (object_with E_FAIL (array_variant 0 2))).
  - reflexivity.
  - vm_compute. discriminate.
Defined.

Lemma GetDateTime_halves_witness :
  exists ft',
    outcome (GetDateTime (E := com_down)
               (item_with S_OK (sample_variant VT_BSTR 0)) "InstallDate" true
               {| dwLowDateTime := 0; dwHighDateTime := 0 |})
      = Returned (Status1 0, ft') /\
    0 <= dwLowDateTime ft' < 4294967296 /\
    0 <= dwHighDateTime ft' < 4294967296 /\
    dwLowDateTime ft' + 4294967296 * dwHighDateTime ft'
    = parse_digits 0 (ascii_to_wide "20190101") mod 18446744073709551616.
Proof.
  apply (GetDateTime_halves (E := com_down)
           (item_with S_OK (sample_variant VT_BSTR 0)) "InstallDate" true
           {| dwLowDateTime := 0; dwHighDateTime := 0 |}
           (object_with S_OK (sample_variant VT_BSTR 0))
           (sample_variant VT_BSTR 0) S_OK S_OK sample_datetime
           (ascii_to_wide "20190101")).
  - reflexivity.
  - reflexivity.
  - reflexivity.
  - reflexivity.
  - vm_compute. discriminate.
  - vm_compute. discriminate.
  - reflexivity.
  - vm_compute. discriminate.
Defined.

Lemma GetDateTime_failure_keeps_filetime_witness :
  exists ft',
    run (GetDateTime (E := com_down)
           (item_with S_OK (sample_variant VT_I4 0)) "InstallDate" false
           {| dwLowDateTime := 5; dwHighDateTime := 6 |})
    = ([Ev_Get S_OK; Ev_VariantClear],
       Returned (Status2 (-1) "Expected VT_BSTR, got something else.", ft')) /\
    ft' = {| dwLowDateTime := 5; dwHighDateTime := 6 |}.
Proof.
  exists {| dwLowDateTime := 5; dwHighDateTime := 6 |}.
  assert (H : run (GetDateTime (E := com_down)
                     (item_with S_OK (sample_variant VT_I4 0)) "InstallDate" false
                     {| dwLowDateTime := 5; dwHighDateTime := 6 |})
              = ([Ev_Get S_OK; Ev_VariantClear],
                 Returned (Status2 (-1) "Expected VT_BSTR, got something else.",
                           {| dwLowDateTime := 5; dwHighDateTime := 6 |})))
    by (vm_compute; reflexivity).
  split; [exact H |].
  apply (GetDateTime_failure_keeps_filetime (E := com_down) _ _ _ _ _ _ _ H).
  vm_compute. discriminate.
Defined.

Lemma GetVectorOfStrings_lock_balanced_witness :
  let t := [Ev_Get S_OK; Ev_SafeArrayAccessData; Ev_SafeArrayUnaccessData;
            Ev_VariantClear] in
  run (GetVectorOfStrings (E := com_down)
         (item_with S_OK (array_variant 0 1)) "Names" [])
  = (t, Returned (Status1 0, ["a"; "b"])) /\
  count is_SafeArrayUnaccessData t = count is_SafeArrayAccessData t /\
  count is_SafeArrayAccessData t
  = (if getCode (Status1 0) =? 0 then 1%nat else 0%nat).
Proof.
  cbv zeta.
  assert (H : run (GetVectorOfStrings (E := com_down)
                     (item_with S_OK (array_variant 0 1)) "Names" [])
              = ([Ev_Get S_OK; Ev_SafeArrayAccessData; Ev_SafeArrayUnaccessData;
                  Ev_VariantClear],
                 Returned (Status1 0, ["a"; "b"])))
    by (vm_compute; reflexivity).
  split; [exact H |].
  exact (GetVectorOfStrings_lock_balanced (E := com_down) _ _ _ _ _ _ H).
Defined.

Lemma GetVectorOfStrings_negative_count_witness :
  run (GetVectorOfStrings (E := com_down)
         (item_with S_OK (array_variant 0 (-3))) "Names" ["x"])
  = ([Ev_Get S_OK; Ev_SafeArrayAccessData], LengthError).
Proof.
  apply (GetVectorOfStrings_negative_count (E := com_down)
           (item_with S_OK (array_variant 0 (-3))) "Names" ["x"]
           (object_with S_OK (array_variant 0 (-3))) (array_variant 0 (-3))).
  - reflexivity.
  - reflexivity.
  - reflexivity.
  - vm_compute. split; [discriminate | reflexivity].
Defined.

Lemma PrintType_paths_witness :
  exists con',
    run (PrintType (E := com_down)
           (item_with E_FAIL (sample_variant VT_I4 3)) "Name" empty_console)
    = ([Ev_Get E_FAIL; Ev_VariantClear], Returned con') /\
    (E_FAIL <> S_OK ->
     con' = to_cerr [P_str "Failed: "; P_str "Name"; P_str nl] empty_console) /\
    (E_FAIL = S_OK -> cerr con' = cerr empty_console).
Proof.
  apply (PrintType_paths (E := com_down)
           (item_with E_FAIL (sample_variant VT_I4 3)) "Name" empty_console
           (object_with E_FAIL (sample_variant VT_I4 3))).
  reflexivity.
Defined.

Lemma WmiResultItem_move_transfers_witness :
  trace (WmiResultItem_dtor
           (fst (WmiResultItem_move (item_with S_OK (sample_variant VT_I4 3)))))
  = [Ev_Release I_WbemClassObject] /\
  trace (WmiResultItem_dtor
           (snd (WmiResultItem_move (item_with S_OK (sample_variant VT_I4 3)))))
  = [].
Proof.
  split.
  - exact (proj1 (WmiResultItem_move_transfers
                    (item_with S_OK (sample_variant VT_I4 3)))).
  - exact (proj1 (proj2 (WmiResultItem_move_transfers
                           (item_with S_OK (sample_variant VT_I4 3))))).
Defined.

Lemma WmiRequest_ctor_until_stop_witness :
  exists r,
    outcome (WmiRequest_ctor
               (E := com_with E_FAIL
                       (enum_then two_objects (WBEM_S_FALSE, None, 0)))
               4 (Status2 1 "unset") "SELECT * FROM Win32_Process" root_cimv2)
      = Returned r /\
    results_ r
    = map wrap two_objects
        ++ kept (Next (enum_then two_objects (WBEM_S_FALSE, None, 0))
                      (List.length two_objects)) /\
    status_ r = Status1 0.
Proof.
  apply (WmiRequest_ctor_until_stop
           (E := com_with E_FAIL (enum_then two_objects (WBEM_S_FALSE, None, 0)))
           4 (Status2 1 "unset") "SELECT * FROM Win32_Process" root_cimv2
           (enum_then two_objects (WBEM_S_FALSE, None, 0)) two_objects).
  - eexists; eexists. repeat split.
  - intros i o Hi. exists 1. split; [| lia].
    cbn [enum_then Next]. now rewrite Hi.
  - vm_compute. discriminate.
  - cbn. lia.
Defined.

Lemma WmiRequest_ctor_never_returns_witness :
  outcome (WmiRequest_ctor (E := com_with S_OK enum_endless)
             1000 (Status1 0) "SELECT * FROM Win32_Process" root_cimv2)
  = OutOfFuel.
Proof.
  apply (WmiRequest_ctor_never_returns (E := com_with S_OK enum_endless)
           (Status1 0) "SELECT * FROM Win32_Process" root_cimv2 enum_endless).
  - eexists; eexists. repeat split.
  - intro n. reflexivity.
Defined.

Lemma WmiRequest_ctor_invariant_witness :
  let t := [Ev_CoInitializeSecurity S_OK;
            Ev_CoCreateInstance CLSID_WbemLocator S_OK;
            Ev_ConnectServer S_OK; Ev_ExecQuery S_OK;
            Ev_Next WBEM_S_NO_ERROR; Ev_Next WBEM_S_NO_ERROR; Ev_Next E_FAIL] in
  run (WmiRequest_ctor (E := com_up two_objects)
         4 (Status2 1 "unset") "SELECT * FROM Win32_Process" root_cimv2)
  = (t, Returned sample_request) /\
  (results_ sample_request <> [] ->
   enum_ sample_request <> None /\ status_ sample_request = Status1 0) /\
  (List.length (results_ sample_request) <= count is_Next t)%nat.
Proof.
  cbv zeta.
  assert (H : run (WmiRequest_ctor (E := com_up two_objects)
                     4 (Status2 1 "unset") "SELECT * FROM Win32_Process"
                     root_cimv2)
              = ([Ev_CoInitializeSecurity S_OK;
                  Ev_CoCreateInstance CLSID_WbemLocator S_OK;
                  Ev_ConnectServer S_OK; Ev_ExecQuery S_OK;
                  Ev_Next WBEM_S_NO_ERROR; Ev_Next WBEM_S_NO_ERROR;
                  Ev_Next E_FAIL],
                 Returned sample_request))
    by (vm_compute; reflexivity).
  split; [exact H |].
  destruct (WmiRequest_ctor_invariant (E := com_up two_objects) _ _ _ _ _ _ H)
    as (_ & _ & Hres & Hlen & _).
  split; [exact Hres | exact Hlen].
Defined.

Lemma WmiRequest_dtor_twice_witness :
  run (WmiRequest_dtor sample_request)
  = ([Ev_Release I_WbemClassObject; Ev_Release I_WbemClassObject;
      Ev_Release I_EnumWbemClassObject; Ev_Release I_WbemServices;
      Ev_Release I_WbemLocator],
     Returned (destroyed sample_request)) /\
  run (WmiRequest_dtor (destroyed sample_request))
  = ([], Returned (destroyed sample_request)).
Proof.
  assert (H : run (WmiRequest_dtor sample_request)
              = ([Ev_Release I_WbemClassObject; Ev_Release I_WbemClassObject;
                  Ev_Release I_EnumWbemClassObject; Ev_Release I_WbemServices;
                  Ev_Release I_WbemLocator],
                 Returned (destroyed sample_request)))
    by reflexivity.
  split; [exact H |].
  exact (WmiRequest_dtor_twice _ _ _ H).
Defined.

Lemma WmiRequest_lifecycle_witness :
  let t := [Ev_CoInitializeSecurity S_OK;
            Ev_CoCreateInstance CLSID_WbemLocator S_OK;
            Ev_ConnectServer E_FAIL] in
  let r := set_locator_ (Some (locator_of E_FAIL S_OK []))
                        (members (Status2 1 "unset")) in
  run (WmiRequest_ctor (E := com_unbound)
         2 (Status2 1 "unset") "SELECT * FROM Win32_Process" root_cimv2)
  = (t, Returned r) /\
  count (is_release_of I_WbemLocator) (trace (WmiRequest_dtor r))
  = count (handed_out I_WbemLocator) t /\
  count (is_release_of I_WbemServices) (trace (WmiRequest_dtor r))
  = count (handed_out I_WbemServices) t.
Proof.
  cbv zeta.
  assert (H : run (WmiRequest_ctor (E := com_unbound)
                     2 (Status2 1 "unset") "SELECT * FROM Win32_Process"
                     root_cimv2)
              = ([Ev_CoInitializeSecurity S_OK;
                  Ev_CoCreateInstance CLSID_WbemLocator S_OK;
                  Ev_ConnectServer E_FAIL],
                 Returned (set_locator_ (Some (locator_of E_FAIL S_OK []))
                                        (members (Status2 1 "unset")))))
    by (vm_compute; reflexivity).
  split; [exact H |]. split.
  - exact (WmiRequest_lifecycle (E := com_unbound) _ _ _ _ _ _ I_WbemLocator H
             (or_introl eq_refl)).
  - exact (WmiRequest_lifecycle (E := com_unbound) _ _ _ _ _ _ I_WbemServices H
             (or_intror (or_introl eq_refl))).
Defined.
